(** * AetherNet: risk scoring, target prioritisation, cluster management and
      the adaptive classifier, embedded from the Python sources

    Sources covered:
    - [aethernet_zoom_targeting.py]   (module [ZoomTargeting])
    - [aethernet_swarm_controller.py] (module [SwarmController])
    - [aethernet_ai_feedback_loop.py] (module [AiFeedbackLoop])

    Conventions of the embedding.
    - A Python [dict] read with [.get] is a [gmap string pyval].
    - Python numbers ([int], [float], and [bool] seen as 0/1) are exact
      rationals [Q]: the development reasons about the arithmetic the code
      writes down, not about binary64 rounding.  NaN and the infinities have
      no counterpart.
    - A Python exception is [None] in the [option] monad.
    - [print] appends an [event] to an output log. *)

From Stdlib Require Import QArith Qround Qminmax Qabs Lqa ZArith String Ascii.
From Stdlib Require Import Sorting.Sorted Sorting.Permutation.
From stdpp Require Import base option list gmap strings sorting.

#[local] Set Warnings "-register-all".
#[local] Open Scope Q_scope.

(* ===================================================================== *)
(** ** Python values and the builtins the sources use *)
(* ===================================================================== *)

Module Py.

Inductive pyval : Type :=
  | VNone
  | VNum (q : Q)
  | VStr (s : string)
  | VDict (d : gmap string pyval).

Abbreviation pydict := (gmap string pyval).

(** [d.get(k, dflt)] *)
Definition get (d : pydict) (k : string) (dflt : pyval) : pyval :=
  default dflt (d !! k).

(** [v.get(k)] on an arbitrary value: an [AttributeError] unless [v] is a
    dict; a missing key gives [None]. *)
Definition attr_get (v : pyval) (k : string) : option pyval :=
  match v with
  | VDict d => Some (get d k VNone)
  | _ => None
  end.

(** Truth value of an object, as used by [or]. *)
Definition truthy (v : pyval) : bool :=
  match v with
  | VNone => false
  | VNum q => negb (Qeq_bool q 0)
  | VStr s => negb (String.eqb s "")
  | VDict d => negb (Nat.eqb (size d) 0)
  end.

(** [a or b] *)
Definition py_or (a b : pyval) : pyval := if truthy a then a else b.

(** [v == s] for a string literal [s]. *)
Definition eq_str (v : pyval) (s : string) : bool :=
  match v with
  | VStr s' => String.eqb s' s
  | _ => false
  end.

(** [v is not None] *)
Definition is_not_none (v : pyval) : bool :=
  match v with
  | VNone => false
  | _ => true
  end.

(** The part of the interpreter that is not arithmetic: how [float] reads a
    string.  [None] is [ValueError]. *)
Class Builtins := { float_of_string : string → option Q }.

(** [float(v)]: [TypeError] on [None] and on a dict. *)
Definition float `{builtins : Builtins} (v : pyval) : option Q :=
  match v with
  | VNum q => Some q
  | VStr s => float_of_string s
  | VNone | VDict _ => None
  end.

(** [x % m] on floats, for a positive modulus: the result has the sign of
    the modulus. *)
Definition fmod (x m : Q) : Q := x - m * inject_Z (Qfloor (x / m)).

(** Nearest integer, ties to the even neighbour. *)
Definition round_half_even (q : Q) : Z :=
  let f := Qfloor q in
  match Qcompare (q - inject_Z f) (1 # 2) with
  | Lt => f
  | Gt => (f + 1)%Z
  | Eq => if Z.even f then f else (f + 1)%Z
  end.

Definition pow10 (n : nat) : positive := Nat.iter n (Pos.mul 10) 1%positive.

(** [round(x, ndigits)].  The result is always written over the
    denominator [10^ndigits], so two rounded values are equal as rationals
    exactly when they are the same term. *)
Definition round (x : Q) (ndigits : nat) : Q :=
  round_half_even (x * inject_Z (Z.pos (pow10 ndigits))) # pow10 ndigits.

(** [s.lower()] on ASCII letters.  Other characters are left alone; none
    of them lowers to a string of ASCII letters that spells one of the
    alignment modes, the only strings a lowered string is compared with. *)
Definition lower_ascii (c : ascii) : ascii :=
  let n := nat_of_ascii c in
  if (65 <=? n)%nat && (n <=? 90)%nat then ascii_of_nat (n + 32) else c.

Fixpoint lower (s : string) : string :=
  match s with
  | EmptyString => EmptyString
  | String c s' => String (lower_ascii c) (lower s')
  end.

(** [v.lower()]: [AttributeError] unless [v] is a string. *)
Definition str_lower (v : pyval) : option string :=
  match v with
  | VStr s => Some (lower s)
  | _ => None
  end.

Definition Qltb (x y : Q) : bool :=
  match Qcompare x y with
  | Lt => true
  | _ => false
  end.

(** [a < b]: defined between two numbers and between two strings,
    [TypeError] otherwise. *)
Definition lt (a b : pyval) : option bool :=
  match a, b with
  | VNum x, VNum y => Some (Qltb x y)
  | VStr s, VStr t => Some (String.ltb s t)
  | _, _ => None
  end.

(** [v > c] for a numeric literal [c]. *)
Definition gt_num (v : pyval) (c : Q) : option bool :=
  match v with
  | VNum x => Some (Qltb c x)
  | _ => None
  end.

(** *** [sorted(l, key=..., reverse=...)]

    The builtin is a stable comparison sort that only asks [<] of the keys.
    On keys that [<] orders totally the output of a stable sort is unique,
    so any stable algorithm stands for it; insertion from the right is used
    here.  With two or more elements every element meets a comparison, so a
    key that cannot be compared raises here exactly when it does in
    Python. *)
Section Sorted.
Context {A : Type} (key : A → pyval).

Fixpoint insert_sorted (x : A) (l : list A) : option (list A) :=
  match l with
  | [] => Some [x]
  | y :: l' =>
      b ← lt (key y) (key x);
      if b : bool then cons y <$> insert_sorted x l' else Some (x :: y :: l')
  end.

Fixpoint stable_sort (l : list A) : option (list A) :=
  match l with
  | [] => Some []
  | x :: l' => stable_sort l' ≫= insert_sorted x
  end.

(** [reverse=True] reverses, sorts and reverses again, which keeps equal
    keys in their original order. *)
Definition sorted (reverse : bool) (l : list A) : option (list A) :=
  if reverse then @rev A <$> stable_sort (rev l) else stable_sort l.
End Sorted.

(** [l[:n]]: a negative bound counts from the end. *)
Definition slice_to {A} (l : list A) (n : Z) : list A :=
  if (0 <=? n)%Z then take (Z.to_nat n) l
  else take (Z.to_nat (Z.of_nat (length l) + n)) l.

End Py.

(* ===================================================================== *)
(** ** The [random] module *)
(* ===================================================================== *)

Module PyRandom.

(** The hidden global generator.  [random] is [random.random()], a float in
    [0,1); [randbelow] is the integer draw below [n] that [random.choice]
    indexes with.  The two laws are the contract of the library. *)
Class Random := {
  RngState : Type;
  random : RngState → Q * RngState;
  randbelow : RngState → nat → nat * RngState;
  random_unit : ∀ g, 0 <= (random g).1 ∧ (random g).1 < 1;
  randbelow_lt : ∀ g n, (0 < n)%nat → ((randbelow g n).1 < n)%nat
}.

(** [random.uniform(a, b)] is [a + (b - a) * random()]. *)
Definition uniform `{rnd : Random} (a b : Q) (g : RngState) : Q * RngState :=
  let '(r, g') := random g in (a + (b - a) * r, g').

(** [random.choice(seq)]: [IndexError] on an empty sequence. *)
Definition choice `{rnd : Random} {A} (seq : list A) (g : RngState)
    : option A * RngState :=
  match seq with
  | [] => (None, g)
  | _ :: _ => let '(i, g') := randbelow g (length seq) in (seq !! i, g')
  end.

End PyRandom.

(* ===================================================================== *)
(** ** aethernet_zoom_targeting.py *)
(* ===================================================================== *)

Module ZoomTargeting.
Import Py.

(** The two literal tables of [calculate_risk_score].  [weights] is walked
    with [.items()], in the order it is written; [norm] is only indexed. *)
Definition weights : list (string * Q) :=
  [ ("CAPE", 0.25);
    ("vorticity", 0.25);
    ("humidity", 0.15);
    ("vertical_velocity", 0.15);
    ("anomaly_score", 0.20) ].

Definition norm : gmap string Q :=
  list_to_map
    [ ("CAPE", 4000);
      ("vorticity", 0.0015);
      ("humidity", 1.0);
      ("vertical_velocity", 3.0);
      ("anomaly_score", 1.0) ].

(** The dict returned by [suggest_geometry]; its five keys are fixed. *)
Record GeometryRecommendation := {
  desired_heading_deg : option Q;   (* [None] is Python's [None] *)
  formation_yaw_offset_deg : Q;
  bank_deg : Q;
  angle_of_attack_deg : Q;
  alignment_mode : string
}.

Section Functions.
Context `{builtins : Builtins}.

(** One turn of the loop [for key, w in weights.items()]. *)
Definition risk_step (sensor_data : pydict) (score : Q) (kw : string * Q)
    : option Q :=
  let '(key, w) := kw in
  value ← float (get sensor_data key (VNum 0.0));
  cap ← norm !! key;
  Some (score + w * Qmin (value / cap) 1.0).

Definition calculate_risk_score (sensor_data : pydict) : option Q :=
  score ← foldl (λ acc kw, score ← acc; risk_step sensor_data score kw)
                (Some 0.0) weights;
  Some (round score 3).

(** The element of the comprehension in [prioritize_targets]. *)
Definition score_pair (data : pydict) : option (pydict * Q) :=
  s ← calculate_risk_score data; Some (data, s).

Definition prioritize_targets (grid_data : list pydict) (top_n : Z)
    : option (list (pydict * Q)) :=
  scored ← mapM score_pair grid_data;
  scored_sorted ← sorted (λ x : pydict * Q, VNum x.2) true scored;
  Some (slice_to scored_sorted top_n).

Definition should_zoom (sensor_data : pydict) (score_threshold : Q)
    : option bool :=
  s ← calculate_risk_score sensor_data;
  Some (Qle_bool score_threshold s).

Definition heading_from_wind_dir (wind_from_deg : pyval) (mode : string)
    : option Q :=
  w ← float wind_from_deg;
  let wind_from_deg := fmod (w + 360.0) 360.0 in
  if String.eqb mode "upwind" then Some wind_from_deg
  else if String.eqb mode "downwind" then
    Some (fmod (wind_from_deg + 180.0) 360.0)
  else Some (fmod (wind_from_deg + 90.0) 360.0).

Definition suggest_geometry (sensor_data : pydict) (mode : string)
    (default_yaw_deg bank_deg aoa_deg : Q) : option GeometryRecommendation :=
  let wind_from := get sensor_data "wind_direction" VNone in
  desired_heading ←
    (if is_not_none wind_from
     then Some <$> heading_from_wind_dir wind_from mode
     else Some None);
  shear ← float (get sensor_data "wind_shear" (VNum 0.0));
  vort ← float (get sensor_data "vorticity" (VNum 0.0));
  let yaw := default_yaw_deg + Qmin (shear / 5.0) 10.0 in
  let bank := bank_deg + Qmin (vort * 500.0) 3.0 in
  Some {| desired_heading_deg := (λ h, round h 1) <$> desired_heading;
          formation_yaw_offset_deg := round yaw 1;
          ZoomTargeting.bank_deg := round bank 1;
          angle_of_attack_deg := round aoa_deg 1;
          alignment_mode := mode |}.
End Functions.

End ZoomTargeting.

(* ===================================================================== *)
(** ** aethernet_swarm_controller.py *)
(* ===================================================================== *)

Module SwarmController.
Import Py.

(** Lines written by [print]. *)
Inductive event :=
  | InfoFormed (cluster_id : string) (n : nat)
      (* [INFO] Cluster {id} formed with {n} simulated drones. *)
  | WarnLost (cluster_id : string) (n : Z).
      (* [WARN] Cluster {id} lost {n} member(s). *)

Record Formation := { yaw_offset_deg : Q; axis : string }.

(** The cluster dict: the keys [form_cluster] writes and
    [reassign_after_failure] indexes. *)
Record Cluster := {
  id : string;
  members : list pydict;
  mode : string;
  status : string;
  formation : Formation
}.

Definition form_cluster (cluster_id : string) (drone_list : list pydict)
    : Cluster * list event :=
  let cluster :=
    {| id := cluster_id;
       members := drone_list;
       mode := if (4 <=? length drone_list)%nat then "mesh" else "scan";
       status := "active";
       formation := {| yaw_offset_deg := 0.0; axis := "crosswind" |} |} in
  (cluster, [InfoFormed cluster_id (length drone_list)]).

(** The test of the comprehension in [reassign_after_failure]. *)
Definition not_failed (d : pydict) : bool :=
  negb (eq_str (get d "status" (VStr "ok")) "failed").

Definition reassign_after_failure (cluster : Cluster) : Cluster * list event :=
  let survivors := List.filter not_failed (members cluster) in
  let out :=
    if negb (length survivors =? length (members cluster))%nat
    then [WarnLost (id cluster)
            (Z.of_nat (length (members cluster)) - Z.of_nat (length survivors))]
    else [] in
  ({| id := id cluster;
      members := survivors;
      mode := if (4 <=? length survivors)%nat then "mesh" else "scan";
      status := status cluster;
      formation := formation cluster |}, out).

Definition recommend_rotation_schedule (drones : list pydict)
    : option (list pydict) :=
  sorted (λ d, get d "battery" (VNum 100)) false drones.

(** The local list of [assign_role]. *)
Definition roles : list string := ["mesh_emitter"; "scout"; "relay"; "observer"].

(** [zone_info.get('zone_priority', False) and drone.get('battery', 0) > 60]:
    the comparison is only evaluated for a truthy priority. *)
Definition assign_role `{rnd : PyRandom.Random} (drone zone_info : pydict)
    (g : PyRandom.RngState) : option string * PyRandom.RngState :=
  if truthy (get zone_info "zone_priority" (VNum 0)) then
    match gt_num (get drone "battery" (VNum 0)) 60 with
    | Some true => (Some "mesh_emitter", g)
    | Some false => PyRandom.choice roles g
    | None => (None, g)
    end
  else PyRandom.choice roles g.

(** The three optional arguments are floats or [None]; the record is updated
    key by key. *)
Definition apply_heading_bias (drone : pydict)
    (heading_deg bank_deg aoa_deg : option Q) : pydict :=
  let drone :=
    match heading_deg with
    | Some h => <["heading_deg" := VNum h]> drone
    | None => drone
    end in
  let drone :=
    match bank_deg with
    | Some b => <["bank_deg" := VNum b]> drone
    | None => drone
    end in
  match aoa_deg with
  | Some a => <["angle_of_attack_deg" := VNum a]> drone
  | None => drone
  end.

End SwarmController.

(* ===================================================================== *)
(** ** aethernet_ai_feedback_loop.py *)
(* ===================================================================== *)

Module AiFeedbackLoop.
Import Py.

Definition ALIGNMENT_MODES : list string :=
  ["upwind"; "downwind"; "crosswind"; "none"].

Abbreviation matrix := (list (list Q)).

(** [np.array(..., dtype=float)] and [np.array(..., dtype=int)] convert
    element by element; how numpy converts one element is library code. *)
Class Numpy := {
  np_float : pyval → option Q;
  np_int : pyval → option Z
}.

(** The scikit-learn calls of the class.  [fit] updates the estimator in
    place, so it returns the estimator it leaves behind together with
    whether the call returned normally; [train_test_split] draws from the
    global generator, threaded here as [Rng]. *)
Class Sklearn := {
  Model : Type;
  Rng : Type;
  RandomForestClassifier : Model;
  train_test_split :
    Rng → matrix → list Z → option (matrix * matrix * list Z * list Z) * Rng;
  fit : Model → matrix → list Z → option unit * Model;
  predict : Model → matrix → option (list Z);
  accuracy_score : list Z → list Z → option Q
}.

(** Lines written by [print]. *)
Inductive event :=
  | WarnNoDiversity    (* [AI] Warning: dataset lacks class diversity ... *)
  | TrainingComplete (acc : Q)
                       (* [AI] Conceptual training complete. ... *)
  | NoticeFallback     (* [AI] Notice: Model not trained. Defaulting ... *)
  | OutcomeMismatch    (* [AI] Outcome mismatch (simulation): ... *)
  | OutcomeMatch.      (* [AI] Outcome match (simulation): ... *)

Section Features.
Context `{builtins : Builtins}.

(** [min(abs(float(v or 0.0)) / span, 1.0)] *)
Definition norm_abs (v : pyval) (span : Q) : option Q :=
  x ← float (py_or v (VNum 0.0));
  Some (Qmin (Qabs x / span) 1.0).

Definition _extract_angle_features (entry : pydict)
    : option (Q * Q * Q * Q * Q * Q * Q) :=
  let meta := get entry "angle_meta" (VDict ∅) in
  heading ← get entry "heading_deg" <$> attr_get meta "heading_deg";
  bank ← get entry "bank_deg" <$> attr_get meta "bank_deg";
  aoa ← get entry "angle_of_attack_deg"
          <$> attr_get meta "angle_of_attack_deg";
  yaw ← get entry "formation_yaw_offset_deg"
          <$> attr_get meta "formation_yaw_offset_deg";
  align_raw ← get entry "alignment_mode" <$> attr_get meta "alignment_mode";
  align ← str_lower (py_or align_raw (VStr "none"));
  heading_norm ←
    (if is_not_none heading
     then h ← float heading; Some (fmod h 360.0 / 360.0)
     else Some 0.0);
  bank_norm ← norm_abs bank 30.0;
  aoa_norm ← norm_abs aoa 15.0;
  yaw_norm ← norm_abs yaw 180.0;
  let align :=
    if bool_decide (align ∈ ALIGNMENT_MODES) then align else "none" in
  let up := if String.eqb align "upwind" then 1.0 else 0.0 in
  let down := if String.eqb align "downwind" then 1.0 else 0.0 in
  let cross := if String.eqb align "crosswind" then 1.0 else 0.0 in
  Some (heading_norm, bank_norm, aoa_norm, yaw_norm, up, down, cross).

(** [list(t)] of the 7-tuple, as Python floats. *)
Definition tuple_list (t : Q * Q * Q * Q * Q * Q * Q) : list pyval :=
  let '(a, b, c, d, e, f, g) := t in
  [VNum a; VNum b; VNum c; VNum d; VNum e; VNum f; VNum g].
End Features.

(** The instance: its two attributes. *)
Record AetherNetAI `{sklearn : Sklearn} := {
  model : Model;
  is_trained : bool
}.

(** What a method of the class can touch: the instance, the global random
    generator and standard output. *)
Record world `{sklearn : Sklearn} := {
  self : AetherNetAI;
  rng : Rng;
  out : list event
}.

Section Class.
Context `{builtins : Builtins, numpy : Numpy, sklearn : Sklearn}.

Definition __init__ : AetherNetAI :=
  {| model := RandomForestClassifier; is_trained := false |}.

(** Methods: state passing over [world]; an exception keeps the world
    reached so far. *)
Definition M (A : Type) : Type := world → option A * world.

Definition ret {A} (a : A) : M A := λ w, (Some a, w).
Definition bind {A B} (m : M A) (f : A → M B) : M B :=
  λ w, match m w with
       | (Some a, w') => f a w'
       | (None, w') => (None, w')
       end.
Definition lift {A} (o : option A) : M A := λ w, (o, w).

Notation "x <~ m ; k" := (bind m (λ x, k))
  (at level 20, m at level 100, k at level 200, only parsing).
Notation "' p <~ m ; k" := (bind m (λ x, let 'p := x in k))
  (at level 20, p pattern, m at level 100, k at level 200, only parsing).
Notation "m ;; k" := (bind m (λ _, k))
  (at level 100, k at level 200, right associativity, only parsing).

Definition print (e : event) : M unit :=
  λ w, (Some (), {| self := self w; rng := rng w; out := out w ++ [e] |}).

Definition get_is_trained : M bool := λ w, (Some (is_trained (self w)), w).

Definition set_is_trained (b : bool) : M unit :=
  λ w, (Some (),
        {| self := {| model := model (self w); is_trained := b |};
           rng := rng w; out := out w |}).

(** [self.model.fit(X, y)] *)
Definition model_fit (X : matrix) (y : list Z) : M unit :=
  λ w, let '(r, m) := fit (model (self w)) X y in
       (r, {| self := {| model := m; is_trained := is_trained (self w) |};
              rng := rng w; out := out w |}).

(** [self.model.predict(X)] *)
Definition model_predict (X : matrix) : M (list Z) :=
  λ w, (predict (model (self w)) X, w).

Definition split (X : matrix) (y : list Z)
    : M (matrix * matrix * list Z * list Z) :=
  λ w, let '(r, g) := train_test_split (rng w) X y in
       (r, {| self := self w; rng := g; out := out w |}).

(** One turn of the loop of [preprocess]: appends to [features] and
    [labels]. *)
Definition preprocess_step (acc : list (list pyval) * list pyval)
    (entry : pydict) : option (list (list pyval) * list pyval) :=
  let '(features, labels) := acc in
  let base :=
    [ get entry "CAPE" (VNum 0.0);
      get entry "vorticity" (VNum 0.0);
      get entry "humidity" (VNum 0.0);
      get entry "vertical_velocity" (VNum 0.0);
      get entry "anomaly_score" (VNum 0.0) ] in
  ang ← tuple_list <$> _extract_angle_features entry;
  Some (features ++ [base ++ ang],
        labels ++ [get entry "storm_formed" (VNum 0)]).

Definition preprocess (dataset : list pydict) : option (matrix * list Z) :=
  '(features, labels) ←
    foldl (λ acc entry, a ← acc; preprocess_step a entry)
          (Some ([], [])) dataset;
  X ← mapM (mapM np_float) features;
  y ← mapM np_int labels;
  Some (X, y).

(** [len(set(y))] *)
Definition distinct (y : list Z) : nat := size (list_to_set y : gset Z).

Definition train (dataset : list pydict) : M unit :=
  '(X, y) <~ lift (preprocess dataset) ;
  if (distinct y <? 2)%nat then
    print WarnNoDiversity
  else
    '(X_train, X_val, y_train, y_val) <~ split X y ;
    model_fit X_train y_train ;;
    pred <~ model_predict X_val ;
    acc <~ lift (accuracy_score y_val pred) ;
    print (TrainingComplete acc) ;;
    set_is_trained true.

Definition _vectorize_scan (current_scan : pydict) : option matrix :=
  let base :=
    [ get current_scan "CAPE" (VNum 0.0);
      get current_scan "vorticity" (VNum 0.0);
      get current_scan "humidity" (VNum 0.0);
      get current_scan "vertical_velocity" (VNum 0.0);
      get current_scan "anomaly_score" (VNum 0.0) ] in
  ang ← tuple_list <$> _extract_angle_features current_scan;
  mapM (mapM np_float) [base ++ ang].

(** The rule of the untrained branch; [and] does not evaluate its second
    operand when the first is false. *)
Definition fallback_rule (current_scan : pydict) : option bool :=
  a ← gt_num (get current_scan "CAPE" (VNum 0)) 1500;
  if a : bool then gt_num (get current_scan "vorticity" (VNum 0)) 0.0005
  else Some false.

Definition predict_next_focus (current_scan : pydict) : M bool :=
  trained <~ get_is_trained ;
  if negb trained then
    print NoticeFallback ;;
    lift (fallback_rule current_scan)
  else
    features <~ lift (_vectorize_scan current_scan) ;
    predictions <~ model_predict features ;
    prediction <~ lift (predictions !! 0%nat) ;
    ret (negb (prediction =? 0)%Z).

Definition retrain_on_outcome (original_dataset : list pydict)
    (success : bool) : M unit :=
  if negb success then
    print OutcomeMismatch ;;
    train original_dataset
  else
    print OutcomeMatch.
End Class.

End AiFeedbackLoop.

(* ===================================================================== *)
(** ** aethernet_network_sync.py *)
(* ===================================================================== *)

Module NetworkSync.
Import Py.

Definition UPLOAD_TARGET : string := "zenodo".

(** What a payload key can hold: a value of the core, or a list of them
    (the [rotation_order] of the base station). *)
Inductive payload_value :=
  | Plain (v : pyval)
  | Listing (l : list pyval).

(** The packet dict of [broadcast_to_open_cloud]; its five keys are fixed. *)
Record Packet := {
  timestamp : string;
  drone_id : pyval;
  payload : gmap string payload_value;
  license : string;
  simulation : bool
}.

(** Lines written by [print]. *)
Inductive event :=
  | OpenCloud (p : Packet)         (* [OPEN-CLOUD] {json} *)
  | ZenodoBegin                    (* [Zenodo Upload] Simulating upload ... *)
  | ZenodoData (p : Packet)        (* the packet, indented *)
  | ZenodoDone                     (* [Zenodo Upload] Upload complete. *)
  | S3Begin                        (* [S3 Upload] Simulating upload ... *)
  | S3Data (p : Packet)
  | S3Done                         (* [S3 Upload] Upload complete. *)
  | UploadError                    (* [Error] Unknown upload target *)
  | PeerLine (drone_id peer : pyval) (envelope_hash : Z).
                                   (* {drone_id} to {peer}: Data hash ... *)

(** [datetime.utcnow().isoformat()]: reading the clock. *)
Class Clock := {
  ClockState : Type;
  utcnow_isoformat : ClockState → string * ClockState
}.

(** [json.dumps(..., sort_keys=True)] and the builtin [hash] of a string,
    as used for the envelope of [peer_to_peer_sync]. *)
Class Hashing := {
  json_dumps_sorted : pydict → string;
  hash : string → Z
}.

(** What the functions of the network layer and their callers touch: the
    clock, the global random generator and standard output. *)
Record world `{clk : Clock, rnd : PyRandom.Random} := {
  clock : ClockState;
  rng : PyRandom.RngState;
  out : list event
}.

Section Functions.
Context `{clk : Clock, rnd : PyRandom.Random, hsh : Hashing}.

Definition print (es : list event) (w : world) : world :=
  {| clock := clock w; rng := rng w; out := out w ++ es |}.

Definition simulate_upload_to_zenodo (data : Packet) (w : world) : world :=
  print [ZenodoDone] (print [ZenodoData data] (print [ZenodoBegin] w)).

Definition simulate_upload_to_s3 (data : Packet) (w : world) : world :=
  print [S3Done] (print [S3Data data] (print [S3Begin] w)).

Definition upload_to_open_repo (data_packet : Packet) (w : world) : world :=
  if String.eqb UPLOAD_TARGET "zenodo" then
    simulate_upload_to_zenodo data_packet w
  else if String.eqb UPLOAD_TARGET "s3" then
    simulate_upload_to_s3 data_packet w
  else print [UploadError] w.

(** The dict comprehension of [broadcast_to_open_cloud]: the angle
    arguments that are not [None], under their names. *)
Definition angle_meta_of (heading_deg bank_deg angle_of_attack_deg
    formation_yaw_offset_deg : pyval) : pydict :=
  list_to_map
    (List.filter (λ kv : string * pyval, is_not_none kv.2)
       [ ("heading_deg", heading_deg);
         ("bank_deg", bank_deg);
         ("angle_of_attack_deg", angle_of_attack_deg);
         ("formation_yaw_offset_deg", formation_yaw_offset_deg) ]).

Definition broadcast_to_open_cloud (drone_id : pyval)
    (payload : gmap string payload_value)
    (heading_deg bank_deg angle_of_attack_deg formation_yaw_offset_deg : pyval)
    (w : world) : Packet * world :=
  let angle_meta :=
    angle_meta_of heading_deg bank_deg angle_of_attack_deg
      formation_yaw_offset_deg in
  let '(now, c) := utcnow_isoformat (clock w) in
  let packet :=
    {| timestamp := now;
       NetworkSync.drone_id := drone_id;
       NetworkSync.payload :=
         if truthy (VDict angle_meta)
         then <["angle_meta" := Plain (VDict angle_meta)]> payload
         else payload;
       license := "CC0";
       simulation := true |} in
  let w := {| clock := c; rng := rng w; out := out w ++ [OpenCloud packet] |} in
  (packet, upload_to_open_repo packet w).

Definition peer_to_peer_sync (drone_id : pyval) (peer_list : list pyval)
    (data : pydict) (angle_meta : pyval) (w : world) : world :=
  let envelope : pydict := {[ "data" := VDict data ]} in
  let envelope :=
    if truthy angle_meta then <["angle_meta" := angle_meta]> envelope
    else envelope in
  let envelope_hash := (hash (json_dumps_sorted envelope) mod 100000)%Z in
  foldl (λ w peer, print [PeerLine drone_id peer envelope_hash] w) w peer_list.
End Functions.

End NetworkSync.

(* ===================================================================== *)
(** ** aethernet_base_station.py *)
(* ===================================================================== *)

Module BaseStation.
Import Py NetworkSync.

Section Functions.
Context `{clk : Clock, rnd : PyRandom.Random}.

(** [d['battery']] and [d['id']] raise [KeyError] on a missing key; the key
    function is applied to every unit before anything is compared. *)
Definition rotation_schedule (fleet : list pydict) (w : world)
    : option (list pydict) * world :=
  match
    keyed ← mapM (λ d : pydict, k ← d !! "battery"; Some (k, d)) fleet;
    sorted_keyed ← sorted (λ kd : pyval * pydict, kd.1) false keyed;
    let sorted_fleet := snd <$> sorted_keyed in
    rotation_order ← mapM (λ d : pydict, d !! "id") sorted_fleet;
    Some (sorted_fleet, rotation_order)
  with
  | Some (sorted_fleet, rotation_order) =>
      let '(_, w) :=
        broadcast_to_open_cloud (VStr "BASE")
          (<["rotation_order" := Listing rotation_order]>
             {[ "event" := Plain (VStr "rotation_schedule") ]})
          VNone VNone VNone VNone w in
      (Some sorted_fleet, w)
  | None => (None, w)
  end.

(** [standby_list.pop()] removes the last entry of the caller's list; the
    list after the call is returned beside the result. *)
Definition assign_backup_unit (cluster_id : pyval) (standby_list : list pyval)
    (w : world) : pyval * list pyval * world :=
  let '(assigned, standby_list) :=
    match last standby_list with
    | Some u => (u, removelast standby_list)
    | None => (VNone, standby_list)
    end in
  let '(_, w) :=
    broadcast_to_open_cloud (VStr "BASE")
      (<["assigned_unit" := Plain assigned]>
         (<["cluster_id" := Plain cluster_id]>
            {[ "event" := Plain (VStr "assign_backup_unit") ]}))
      VNone VNone VNone VNone w in
  (assigned, standby_list, w).

Definition update_mission_envelope (envelope : pyval) (w : world) : world :=
  (broadcast_to_open_cloud (VStr "BASE")
     (<["envelope" := Plain envelope]>
        {[ "event" := Plain (VStr "mission_envelope_update") ]})
     VNone VNone VNone VNone w).2.
End Functions.

End BaseStation.

(* ===================================================================== *)
(** ** aethernet_drone_mesh_behaviours.py *)
(* ===================================================================== *)

Module DroneMeshBehaviours.
Import Py NetworkSync.

Section Functions.
Context `{clk : Clock, rnd : PyRandom.Random}.

(** The three draws of the [behavior] dict happen in the order the dict is
    written, before anything is broadcast. *)
Definition execute_turbulence_pattern (drone_id pattern_name : pyval)
    (w : world) : option pydict * world :=
  let '(intensity, g) := PyRandom.uniform 0.6 1.0 (rng w) in
  let '(direction, g) :=
    PyRandom.choice ["NE"; "SW"; "E"; "W"; "spiral"; "crosscut"] g in
  let '(altitude, g) := PyRandom.choice [480; 500; 520] g in
  let w := {| clock := clock w; rng := g; out := out w |} in
  match direction, altitude with
  | Some direction, Some altitude =>
      let behavior : pydict :=
        list_to_map
          [ ("drone_id", drone_id);
            ("pattern", pattern_name);
            ("intensity", VNum (round intensity 2));
            ("direction", VStr direction);
            ("altitude", VNum altitude) ] in
      let '(_, w) :=
        broadcast_to_open_cloud drone_id
          (<["behavior" := Plain (VDict behavior)]>
             {[ "event" := Plain (VStr "turbulence_pattern_executed") ]})
          VNone VNone VNone VNone w in
      (Some behavior, w)
  | _, _ => (None, w)
  end.

Definition adjust_behavior (drone_id : pyval) (local_conditions : pydict)
    (w : world) : option pydict * world :=
  match gt_num (get local_conditions "humidity" (VNum 0)) 0.75 with
  | None => (None, w)
  | Some humid =>
      let pattern := VStr (if humid : bool then "zigzag" else "spiral") in
      match execute_turbulence_pattern drone_id pattern w with
      | (Some result, w) =>
          let '(_, w) :=
            broadcast_to_open_cloud drone_id
              (<["input_conditions" := Plain (VDict local_conditions)]>
                 (<["chosen_pattern" := Plain pattern]>
                    {[ "event" := Plain (VStr "adaptive_pattern_decision") ]}))
              VNone VNone VNone VNone w in
          (Some result, w)
      | (None, w) => (None, w)
      end
  end.
End Functions.

End DroneMeshBehaviours.

(* ===================================================================== *)
(** ** Reference definitions, written from the specification, and sample
       data *)
(* ===================================================================== *)

Module Reference.
Import Py.

(** A raw value divided by its cap, clamped above at 1.0; there is no
    clamp below. *)
Definition clamp (value cap : Q) : Q := Qmin (value / cap) 1.0.

(** The weighted sum of the five clamped features. *)
Definition weighted_sum (c v h vv a : Q) : Q :=
  0.25 * clamp c 4000 + 0.25 * clamp v 0.0015 + 0.15 * clamp h 1.0
  + 0.15 * clamp vv 3.0 + 0.20 * clamp a 1.0.

(** *** A stable sort on numeric keys

    [insert_by] puts [x] in front of the first element whose key is not
    smaller; [sort_by] inserts the elements from the right, so equal keys
    stay in their original order. *)
Section RefSort.
Context {A : Type} (k : A → Q).

Fixpoint insert_by (x : A) (l : list A) : list A :=
  match l with
  | [] => [x]
  | y :: l' => if Qltb (k y) (k x) then y :: insert_by x l' else x :: y :: l'
  end.

Definition sort_by (l : list A) : list A := foldr insert_by [] l.

Definition sorted_by (reverse : bool) (l : list A) : list A :=
  if reverse then rev (sort_by (rev l)) else sort_by l.

(** The orders the claims speak of, and the sub-list of the elements whose
    key is [q], used to state stability. *)
Definition ascending (x y : A) : Prop := k x <= k y.
Definition descending (x y : A) : Prop := k y <= k x.
Definition with_key (q : Q) (l : list A) : list A :=
  List.filter (λ x, Qeq_bool (k x) q) l.
End RefSort.


(** Every key of [l] is a number, and [k] reads it. *)
Definition numeric_keys {A} (key : A → pyval) (k : A → Q) (l : list A) : Prop :=
  Forall (λ x, key x = VNum (k x)) l.

(** *** Library instances to run the functions on concrete inputs *)

(** An interpreter for which no string spells a number. *)
Definition no_numeric_strings : Builtins :=
  {| float_of_string := λ _, None |}.

(** A small estimator to run the class on: it remembers the first label it
    is fitted on and predicts it for every row; before [fit] it refuses to
    predict, as an unfitted forest does. *)
Definition constant_classifier : AiFeedbackLoop.Sklearn :=
  {| AiFeedbackLoop.Model := option Z;
     AiFeedbackLoop.Rng := unit;
     AiFeedbackLoop.RandomForestClassifier := None;
     AiFeedbackLoop.train_test_split := λ g X y,
       (Some (drop 1 X, take 1 X, drop 1 y, take 1 y), g);
     AiFeedbackLoop.fit := λ _ X y, (Some (), Some (List.hd 0%Z y));
     AiFeedbackLoop.predict := λ m X, c ← m; Some ((λ _, c) <$> X);
     AiFeedbackLoop.accuracy_score := λ a b, Some 1 |}.

(** Numbers convert to themselves; everything else is rejected. *)
Definition numbers_only : AiFeedbackLoop.Numpy :=
  {| AiFeedbackLoop.np_float := λ v,
       match v with
       | VNum q => Some q
       | _ => None
       end;
     AiFeedbackLoop.np_int := λ v,
       match v with
       | VNum q => Some (Qfloor q)
       | _ => None
       end |}.

(** The reading of the end-to-end scenario: every feature at its cap. *)
Definition storm_reading : pydict :=
  list_to_map
    [ ("CAPE", VNum 4000); ("vorticity", VNum 0.0015); ("humidity", VNum 1.0);
      ("vertical_velocity", VNum 3.0); ("anomaly_score", VNum 1.0) ].

(** A grid of four readings: a calm zone, the storm, a zone with a negative
    CAPE, and a second calm zone that scores like the first. *)
Definition calm_reading : pydict :=
  list_to_map [ ("CAPE", VNum 2000); ("vorticity", VNum 0.001);
                ("wind_direction", VNum 200) ].

Definition odd_reading : pydict := {[ "CAPE" := VNum (-2000) ]}.

Definition calm_twin : pydict := <["wind_direction" := VNum 90]> calm_reading.

Definition sample_grid : list pydict :=
  [calm_reading; storm_reading; odd_reading; calm_twin].

(** A recommendation with its [alignment_mode] replaced. *)
Definition with_mode (mode : string)
    (g : ZoomTargeting.GeometryRecommendation)
    : ZoomTargeting.GeometryRecommendation :=
  {| ZoomTargeting.desired_heading_deg := ZoomTargeting.desired_heading_deg g;
     ZoomTargeting.formation_yaw_offset_deg :=
       ZoomTargeting.formation_yaw_offset_deg g;
     ZoomTargeting.bank_deg := ZoomTargeting.bank_deg g;
     ZoomTargeting.angle_of_attack_deg := ZoomTargeting.angle_of_attack_deg g;
     ZoomTargeting.alignment_mode := mode |}.

(** A member is failed when its status is the string 'failed'; a member
    with no status counts as 'ok'. *)
Definition has_failed_status (d : pydict) : bool :=
  match d !! "status" with
  | Some (VStr st) => String.eqb st "failed"
  | _ => false
  end.

(** The rule for [mode]: 'mesh' with at least 4 members, 'scan' with
    fewer. *)
Definition mode_rule (c : SwarmController.Cluster) : Prop :=
  (SwarmController.mode c = "mesh"
   ↔ (4 ≤ length (SwarmController.members c))%nat)
  ∧ (SwarmController.mode c = "scan"
     ↔ (length (SwarmController.members c) < 4)%nat).

(** A member record is rewritten in place, as the demo does with
    [cluster['members'][1]['status'] = 'failed']. *)
Definition update_member (i : nat) (d : pydict) (c : SwarmController.Cluster)
    : SwarmController.Cluster :=
  {| SwarmController.id := SwarmController.id c;
     SwarmController.members := <[i := d]> (SwarmController.members c);
     SwarmController.mode := SwarmController.mode c;
     SwarmController.status := SwarmController.status c;
     SwarmController.formation := SwarmController.formation c |}.

(** The life of a cluster record: formed, then any number of member
    updates and failure reassignments. *)
Inductive reachable : SwarmController.Cluster → Prop :=
  | reach_form cluster_id drone_list :
      reachable (SwarmController.form_cluster cluster_id drone_list).1
  | reach_update i d c :
      reachable c → reachable (update_member i d c)
  | reach_reassign c :
      reachable c → reachable (SwarmController.reassign_after_failure c).1.

(** The battery a unit is scheduled by: its own, or 100 when it has none. *)
Definition battery_or_100 (d : pydict) : Q :=
  match d !! "battery" with
  | Some (VNum q) => q
  | _ => 100
  end.

(** The battery of a unit, when there is one, is a number. *)
Definition numeric_battery (d : pydict) : Prop :=
  match d !! "battery" with
  | None | Some (VNum _) => True
  | Some _ => False
  end.

(** The five units of the end-to-end scenario, a sixth without battery, and
    the first four with the second marked failed. *)
Definition unit (name : string) (battery : Q) : pydict :=
  list_to_map [ ("id", VStr name); ("battery", VNum battery) ].

Definition fleet : list pydict :=
  [ unit "D1" 65; unit "D2" 40; unit "D3" 85; unit "D4" 55; unit "D5" 30;
    {[ "id" := VStr "D6" ]} ].

Definition healthy_cluster : SwarmController.Cluster :=
  (SwarmController.form_cluster "Z9" (take 4 fleet)).1.

Definition damaged_cluster : SwarmController.Cluster :=
  (SwarmController.form_cluster "Z9"
     [ unit "D1" 65; <["status" := VStr "failed"]> (unit "D2" 40);
       unit "D3" 85; unit "D4" 55 ]).1.

(** The row both [preprocess] and [_vectorize_scan] are meant to build for
    a record, before numpy converts it: the 5 sensor features, 0.0 when
    absent, followed by the 7 angle features. *)
Definition raw_row `{builtins : Builtins} (entry : pydict) : option (list pyval) :=
  ang ← AiFeedbackLoop.tuple_list
          <$> AiFeedbackLoop._extract_angle_features entry;
  Some ([ get entry "CAPE" (VNum 0.0);
          get entry "vorticity" (VNum 0.0);
          get entry "humidity" (VNum 0.0);
          get entry "vertical_velocity" (VNum 0.0);
          get entry "anomaly_score" (VNum 0.0) ] ++ ang).

(** The outcome label of a record. *)
Definition raw_label (entry : pydict) : pyval :=
  get entry "storm_formed" (VNum 0).

(** A classifier that has never been trained, one fitted on the label 1,
    and a dataset whose outcomes are all 1. *)
Definition fresh_world
    : AiFeedbackLoop.world (sklearn := constant_classifier) :=
  @AiFeedbackLoop.Build_world constant_classifier
    AiFeedbackLoop.__init__ tt [].

Definition trained_world
    : AiFeedbackLoop.world (sklearn := constant_classifier) :=
  @AiFeedbackLoop.Build_world constant_classifier
    (@AiFeedbackLoop.Build_AetherNetAI constant_classifier
       (Some 1%Z) true)
    tt [].

Definition one_sided_dataset : list pydict :=
  [ <["storm_formed" := VNum 1]> storm_reading;
    <["storm_formed" := VNum 1]> calm_reading ].

(** *** Definitions and sample data for the remaining functions *)

(** The five keys [_extract_angle_features] looks up, in a record and in
    its [angle_meta] block. *)
Definition angle_keys : list string :=
  [ "heading_deg"; "bank_deg"; "angle_of_attack_deg";
    "formation_yaw_offset_deg"; "alignment_mode" ].

(** A lawful random source to run the functions on: the state is a
    counter, [random] walks through 0.0, 0.1, ..., 0.9 and [randbelow]
    through the residues. *)
Definition cycling_random : PyRandom.Random.
Proof.
  refine {| PyRandom.RngState := nat;
            PyRandom.random := λ g, (Z.of_nat (g mod 10) # 10, S g);
            PyRandom.randbelow := λ g n, ((g mod n)%nat, S g) |}.
  - intros g. cbn [fst]. unfold Qle, Qlt. cbn [Qnum Qden].
    pose proof (Nat.mod_upper_bound g 10). lia.
  - intros g n Hn. cbn [fst]. apply Nat.mod_upper_bound. lia.
Defined.

(** A clock that reads out a prepared list of time stamps. *)
Definition scripted_clock : NetworkSync.Clock :=
  {| NetworkSync.ClockState := list string;
     NetworkSync.utcnow_isoformat := λ c, (List.hd "" c, List.tl c) |}.

(** A stand-in for the envelope hash: the number of keys rendered, and a
    hash that can be negative, as Python's is. *)
Definition key_count_hash : NetworkSync.Hashing :=
  {| NetworkSync.json_dumps_sorted := λ d,
       String.concat "," (fst <$> map_to_list d);
     NetworkSync.hash := λ s, (Z.of_nat (String.length s) - 1000)%Z |}.

Definition quiet_world
    : NetworkSync.world (clk := scripted_clock) (rnd := cycling_random) :=
  @NetworkSync.Build_world scripted_clock cycling_random
    ["2025-01-01T00:00:00"; "2025-01-01T00:00:01"] 7%nat [].

(** An [angle_meta] block, a record with a top-level heading that carries
    the block, and a record with all five angle keys at the top level. *)
Definition angled_block : pydict :=
  list_to_map [ ("heading_deg", VNum 10); ("bank_deg", VNum (-45));
                ("alignment_mode", VStr "UpWind") ].

Definition angled_entry : pydict :=
  list_to_map
    [ ("CAPE", VNum 2100); ("heading_deg", VNum 370);
      ("angle_meta", VDict angled_block) ].

Definition steered_entry : pydict :=
  list_to_map
    [ ("heading_deg", VNum 370); ("bank_deg", VNum 12);
      ("angle_of_attack_deg", VNum 3);
      ("formation_yaw_offset_deg", VNum (-20));
      ("alignment_mode", VStr "downwind") ].

(** An estimator that fits like [constant_classifier] but refuses every
    prediction, and a fresh instance of the class over it. *)
Definition brittle_classifier : AiFeedbackLoop.Sklearn :=
  {| AiFeedbackLoop.Model := option Z;
     AiFeedbackLoop.Rng := Datatypes.unit;
     AiFeedbackLoop.RandomForestClassifier := None;
     AiFeedbackLoop.train_test_split := λ g X y,
       (Some (drop 1 X, take 1 X, drop 1 y, take 1 y), g);
     AiFeedbackLoop.fit := λ _ X y, (Some (), Some (List.hd 0%Z y));
     AiFeedbackLoop.predict := λ _ _, None;
     AiFeedbackLoop.accuracy_score := λ a b, Some 1 |}.

Definition brittle_world
    : AiFeedbackLoop.world (sklearn := brittle_classifier) :=
  @AiFeedbackLoop.Build_world brittle_classifier
    AiFeedbackLoop.__init__ tt [].

(** A dataset with both outcomes. *)
Definition two_class_dataset : list pydict :=
  [ <["storm_formed" := VNum 1]> storm_reading;
    <["storm_formed" := VNum 0]> calm_reading;
    <["storm_formed" := VNum 1]> calm_twin ].

(** The ranking of [sample_grid]. *)
Definition sample_ranking : list (pydict * Q) :=
  [ (storm_reading, 1.000); (calm_reading, 0.292); (calm_twin, 0.292);
    (odd_reading, -0.125) ].

End Reference.

(* ===================================================================== *)
(** ** Facts about the builtins *)
(* ===================================================================== *)

Module PyFacts.
Import Py.

#[global] Instance round_half_even_proper : Proper (Qeq ==> eq) round_half_even.
Proof.
  intros x y Hxy. unfold round_half_even.
  rewrite (Qfloor_comp _ _ Hxy).
  assert (Hc : (x - inject_Z (Qfloor y) ?= 1 # 2) = (y - inject_Z (Qfloor y) ?= 1 # 2)).
  { apply Qcompare_comp; [ rewrite Hxy | ]; reflexivity. }
  cbv zeta. rewrite Hc. reflexivity.
Qed.

#[global] Instance round_proper : Proper (Qeq ==> eq ==> eq) round.
Proof.
  intros x y Hxy n ? <-. unfold round. f_equal.
  apply round_half_even_proper. rewrite Hxy. reflexivity.
Qed.

Lemma round_half_even_bounds (a b : Z) (q : Q) :
  inject_Z a <= q → q <= inject_Z b → (a ≤ round_half_even q ≤ b)%Z.
Proof.
  intros Ha Hb. unfold round_half_even.
  assert (Hfa : (a ≤ Qfloor q)%Z).
  { rewrite <- (Qfloor_Z a). by apply Qfloor_resp_le. }
  assert (Hfb : (Qfloor q ≤ b)%Z).
  { rewrite <- (Qfloor_Z b). by apply Qfloor_resp_le. }
  pose proof (Qfloor_le q) as Hfl.
  destruct (Z.eq_dec (Qfloor q) b) as [Heq | Hne].
  - assert (Hlt : q - inject_Z (Qfloor q) < 1 # 2).
    { rewrite Heq in *. lra. }
    cbv zeta. destruct (Qcompare _ _) eqn:Hc;
      [ apply Qeq_alt in Hc; lra | lia | apply Qgt_alt in Hc; lra ].
  - cbv zeta. destruct (_ ?= _); [destruct (Z.even _)| |]; lia.
Qed.

Lemma round_half_even_Z (z : Z) (q : Q) :
  q == inject_Z z → round_half_even q = z.
Proof.
  intros Hq.
  pose proof (round_half_even_bounds z z q) as Hb.
  assert (z ≤ round_half_even q ≤ z)%Z; [ apply Hb; rewrite Hq; lra | lia ].
Qed.

Lemma round_unit_interval (x : Q) (n : nat) :
  0 <= x → x <= 1 → 0 <= round x n ∧ round x n <= 1.
Proof.
  intros H0 H1. unfold round.
  set (p := pow10 n).
  assert (Hp : 0 < inject_Z (Z.pos p)) by (unfold Qlt; simpl; lia).
  destruct (round_half_even_bounds 0 (Z.pos p) (x * inject_Z (Z.pos p))) as [Hlo Hhi].
  - change (inject_Z 0) with 0. nra.
  - nra.
  - unfold Qle; simpl. split; lia.
Qed.

Lemma round_exact (x : Q) (n : nat) (z : Z) :
  x == inject_Z z → round x n == inject_Z z.
Proof.
  intros Hx. unfold round.
  rewrite (round_half_even_Z (z * Z.pos (pow10 n))).
  - unfold Qeq; simpl. lia.
  - rewrite Hx, inject_Z_mult. reflexivity.
Qed.

End PyFacts.

(* ===================================================================== *)
(** ** Facts about [sorted] *)
(* ===================================================================== *)

Module SortFacts.
Import Py Reference.

Lemma Qltb_lt x y : Qltb x y = true ↔ x < y.
Proof.
  unfold Qltb. rewrite Qlt_alt. destruct (Qcompare x y); naive_solver.
Qed.

Lemma Qltb_ge x y : Qltb x y = false ↔ y <= x.
Proof.
  rewrite <- not_true_iff_false, Qltb_lt. split; [ apply Qnot_lt_le | apply Qle_not_lt ].
Qed.

Section Pure.
Context {A : Type} (k : A → Q).

Lemma insert_by_Permutation x l : insert_by k x l ≡ₚ x :: l.
Proof.
  induction l as [|y l IH]; [ done | ]. cbn.
  destruct (Qltb _ _); [ | done ].
  rewrite IH. apply Permutation_swap.
Qed.

Lemma sort_by_Permutation l : sort_by k l ≡ₚ l.
Proof.
  induction l as [|x l IH]; [ done | ]. cbn.
  by rewrite insert_by_Permutation, IH.
Qed.

Lemma insert_by_sorted x l :
  StronglySorted (ascending k) l → StronglySorted (ascending k) (insert_by k x l).
Proof.
  induction 1 as [|y l Hl IH Hy]; cbn.
  - repeat constructor.
  - destruct (Qltb (k y) (k x)) eqn:Hlt.
    + constructor; [ done | ].
      rewrite insert_by_Permutation. constructor; [ | done ].
      apply Qltb_lt in Hlt. unfold ascending. lra.
    + apply Qltb_ge in Hlt.
      constructor; [ by constructor | ].
      constructor; [ done | ].
      eapply Forall_impl; [ exact Hy | ].
      unfold ascending. intros z Hz. lra.
Qed.

Lemma sort_by_sorted l : StronglySorted (ascending k) (sort_by k l).
Proof.
  induction l as [|x l IH]; cbn; [ constructor | by apply insert_by_sorted ].
Qed.

Lemma with_key_insert_by q x l :
  with_key k q (insert_by k x l) = with_key k q (x :: l).
Proof.
  induction l as [|y l IH]; [ done | ]. cbn.
  destruct (Qltb (k y) (k x)) eqn:Hlt; [ | done ].
  apply Qltb_lt in Hlt.
  cbn. unfold with_key in IH. rewrite IH. cbn.
  destruct (Qeq_bool (k x) q) eqn:Hx; [ | done ].
  destruct (Qeq_bool (k y) q) eqn:Hy; [ | done ].
  apply Qeq_bool_iff in Hx, Hy. lra.
Qed.

Lemma with_key_sort_by q l : with_key k q (sort_by k l) = with_key k q l.
Proof.
  induction l as [|x l IH]; [ done | ].
  change (sort_by k (x :: l)) with (insert_by k x (sort_by k l)).
  rewrite with_key_insert_by. unfold with_key in *.
  cbn [List.filter]. by rewrite IH.
Qed.

Lemma StronglySorted_rev (R : relation A) l :
  StronglySorted R l → StronglySorted (flip R) (rev l).
Proof.
  induction 1 as [|x l Hl IH Hx]; cbn; [ constructor | ].
  apply StronglySorted_app_2; [ | done | repeat constructor ].
  intros y z Hy Hz. apply list_elem_of_singleton in Hz as ->.
  rewrite Forall_forall in Hx. apply Hx.
  apply list_elem_of_In, in_rev. by apply list_elem_of_In.
Qed.

Lemma sorted_by_Permutation reverse l : sorted_by k reverse l ≡ₚ l.
Proof.
  destruct reverse; cbn; [ | apply sort_by_Permutation ].
  by rewrite <- Permutation_rev, sort_by_Permutation, <- Permutation_rev.
Qed.

Lemma sorted_by_ascending l : StronglySorted (ascending k) (sorted_by k false l).
Proof. apply sort_by_sorted. Qed.

Lemma sorted_by_descending l : StronglySorted (descending k) (sorted_by k true l).
Proof. cbn. apply (StronglySorted_rev (ascending k)), sort_by_sorted. Qed.

Lemma sorted_by_stable reverse q l :
  with_key k q (sorted_by k reverse l) = with_key k q l.
Proof.
  destruct reverse; cbn; [ | apply with_key_sort_by ].
  unfold with_key. rewrite filter_rev.
  fold (with_key k q (sort_by k (rev l))). rewrite with_key_sort_by.
  unfold with_key. by rewrite filter_rev, rev_involutive.
Qed.
End Pure.

Section Builtin.
Context {A : Type} (key : A → pyval) (k : A → Q).

Lemma insert_sorted_numeric x l :
  key x = VNum (k x) → numeric_keys key k l →
  insert_sorted key x l = Some (insert_by k x l).
Proof.
  intros Hx. induction 1 as [|y l Hy Hl IH]; [ done | ]. cbn.
  rewrite Hx, Hy. cbn. destruct (Qltb _ _); [ | done ].
  by rewrite IH.
Qed.

Lemma stable_sort_numeric l :
  numeric_keys key k l → stable_sort key l = Some (sort_by k l).
Proof.
  induction 1 as [|x l Hx Hl IH]; [ done | ].
  cbn [stable_sort]. rewrite IH. cbn [mbind option_bind].
  change (sort_by k (x :: l)) with (insert_by k x (sort_by k l)).
  apply insert_sorted_numeric; [ done | ].
  unfold numeric_keys. by rewrite sort_by_Permutation.
Qed.

Lemma sorted_numeric reverse l :
  numeric_keys key k l → sorted key reverse l = Some (sorted_by k reverse l).
Proof.
  intros Hl. unfold sorted, sorted_by. destruct reverse.
  - rewrite stable_sort_numeric; [ done | ].
    unfold numeric_keys. by rewrite <- Permutation_rev.
  - by apply stable_sort_numeric.
Qed.
End Builtin.
End SortFacts.

(* ===================================================================== *)
(** ** aethernet_zoom_targeting.py: proofs *)
(* ===================================================================== *)

Module ZoomFacts.
Import Py ZoomTargeting Reference PyFacts SortFacts.

Lemma clamp_le_1 x cap : clamp x cap <= 1.
Proof. unfold clamp. pose proof (Q.le_min_r (x / cap) 1.0). lra. Qed.

Lemma clamp_nonneg x cap : 0 < cap → 0 <= x → 0 <= clamp x cap.
Proof.
  intros Hc Hx. unfold clamp. apply Q.min_glb; [ | lra ].
  apply Qle_shift_div_l; [ done | lra ].
Qed.

Lemma clamp_below x cap : 0 < cap → x <= cap → clamp x cap == x / cap.
Proof.
  intros Hc Hx. unfold clamp. apply Q.min_l.
  apply Qle_shift_div_r; [ done | lra ].
Qed.

Lemma clamp_zero x cap : 0 < cap → x == 0 → clamp x cap == 0.
Proof.
  intros Hc Hx. rewrite clamp_below; [ | done | lra ].
  rewrite Hx. unfold Qdiv. ring.
Qed.

Lemma clamp_cap x cap : 0 < cap → cap <= x → clamp x cap == 1.
Proof.
  intros Hc Hx. unfold clamp. rewrite Q.min_r; [ lra | ].
  apply Qle_shift_div_l; [ done | lra ].
Qed.

Section WithBuiltins.
Context `{builtins : Builtins}.

Lemma calculate_risk_score_eq (d : pydict) (c v h vv a : Q) :
  float (get d "CAPE" (VNum 0.0)) = Some c →
  float (get d "vorticity" (VNum 0.0)) = Some v →
  float (get d "humidity" (VNum 0.0)) = Some h →
  float (get d "vertical_velocity" (VNum 0.0)) = Some vv →
  float (get d "anomaly_score" (VNum 0.0)) = Some a →
  calculate_risk_score d = Some (round (weighted_sum c v h vv a) 3).
Proof.
  intros Hc Hv Hh Hvv Ha.
  unfold calculate_risk_score, weights. cbn [foldl].
  unfold risk_step. cbn [mbind option_bind].
  rewrite Hc, Hv, Hh, Hvv, Ha. cbn [mbind option_bind].
  change (norm !! "CAPE") with (Some (4000 : Q)).
  change (norm !! "vorticity") with (Some 0.0015).
  change (norm !! "humidity") with (Some 1.0).
  change (norm !! "vertical_velocity") with (Some 3.0).
  change (norm !! "anomaly_score") with (Some 1.0).
  cbn [mbind option_bind]. f_equal.
  apply round_proper; [ | done ].
  unfold weighted_sum, clamp. ring.
Qed.


Lemma slice_to_nonneg {A} (l : list A) (n : Z) :
  (0 ≤ n)%Z → slice_to l n = take (Z.to_nat n) l.
Proof. intros Hn. unfold slice_to. by rewrite (proj2 (Z.leb_le 0 n) Hn). Qed.

Lemma prioritize_targets_sorted (grid : list pydict) (top_n : Z) scored :
  mapM score_pair grid = Some scored →
  prioritize_targets grid top_n = Some (slice_to (sorted_by snd true scored) top_n).
Proof.
  intros Hs. unfold prioritize_targets. rewrite Hs. cbn [mbind option_bind].
  rewrite (sorted_numeric _ snd); [ done | ].
  unfold numeric_keys. by apply Forall_forall.
Qed.

Lemma score_pair_Some d p :
  score_pair d = Some p ↔ p.1 = d ∧ calculate_risk_score d = Some p.2.
Proof.
  unfold score_pair. destruct (calculate_risk_score d) as [s|]; cbn.
  - destruct p as [d' s']. cbn. split; [ by intros [= -> ->] | ].
    by intros [-> [= ->]].
  - split; [ done | by intros [_ ?] ].
Qed.

(** C2 (amended). For a list of readings that can all be scored and a
    [top_n] that is not negative, [prioritize_targets] returns exactly
    [min(top_n, len(readings))] pairs of a reading and its score, ordered
    non-increasingly by score, pairs of equal score keeping their original
    relative order.  The pairs returned are the first entries of
    [res ++ rest], which holds the same pairs as [scored] (the readings
    paired with their scores in input order), is itself ordered
    non-increasingly and keeps pairs of equal score in input order. *)
Theorem prioritize_targets_spec (grid : list pydict) (top_n : Z) :
  Forall (λ d, is_Some (calculate_risk_score d)) grid →
  (0 ≤ top_n)%Z →
  ∃ scored res rest,
    Forall2 (λ d p, p.1 = d ∧ calculate_risk_score d = Some p.2) grid scored
    ∧ prioritize_targets grid top_n = Some res
    ∧ Z.of_nat (length res) = Z.min top_n (Z.of_nat (length grid))
    ∧ StronglySorted (descending snd) res
    ∧ (∀ s, with_key snd s res `prefix_of` with_key snd s scored)
    ∧ res ++ rest ≡ₚ scored
    ∧ StronglySorted (descending snd) (res ++ rest)
    ∧ (∀ s, with_key snd s (res ++ rest) = with_key snd s scored).
Proof.
  intros Hgrid Hn.
  destruct (mapM score_pair grid) as [scored|] eqn:Hs; last first.
  { exfalso. apply mapM_None in Hs.
    apply Exists_exists in Hs as (d & Hd & Hnone).
    rewrite Forall_forall in Hgrid. destruct (Hgrid d Hd) as [s Hsc].
    unfold score_pair in Hnone. by rewrite Hsc in Hnone. }
  pose proof Hs as HF. apply mapM_Some in HF.
  set (all := sorted_by snd true scored).
  pose proof (sorted_by_descending snd scored) as Hsorted. fold all in Hsorted.
  pose proof (sorted_by_stable (A := pydict * Q) snd true) as Hstable.
  exists scored, (take (Z.to_nat top_n) all), (drop (Z.to_nat top_n) all).
  split; [ | split; [ | split; [ | split; [ | split ] ] ] ].
  - eapply Forall2_impl; [ exact HF | ]. intros d p. apply score_pair_Some.
  - rewrite (prioritize_targets_sorted _ _ scored Hs).
    by rewrite slice_to_nonneg.
  - rewrite length_take. unfold all.
    rewrite (Permutation_length (sorted_by_Permutation snd true scored)).
    rewrite <- (Forall2_length _ _ _ HF). lia.
  - rewrite <- (take_drop (Z.to_nat top_n) all) in Hsorted.
    by apply StronglySorted_app_1_l in Hsorted.
  - intros s. rewrite <- (Hstable s scored). fold all.
    rewrite <- (take_drop (Z.to_nat top_n) all) at 2.
    unfold with_key. rewrite List.filter_app. by eexists.
  - rewrite take_drop. split; [ apply sorted_by_Permutation | ].
    split; [ done | ]. intros s. apply Hstable.
Qed.

Lemma heading_from_wind_dir_default (w : pyval) (mode : string) :
  mode ≠ "upwind" → mode ≠ "downwind" →
  heading_from_wind_dir w mode = heading_from_wind_dir w "crosswind".
Proof.
  intros Hu Hd. unfold heading_from_wind_dir.
  apply String.eqb_neq in Hu, Hd. by rewrite Hu, Hd.
Qed.

Lemma suggest_geometry_mode (d : pydict) (mode : string) (yaw bank aoa : Q) g :
  suggest_geometry d mode yaw bank aoa = Some g → alignment_mode g = mode.
Proof.
  unfold suggest_geometry. intros Hg.
  repeat (apply bind_Some in Hg as (? & _ & Hg)).
  by injection Hg as <-.
Qed.

(** C10. Whatever the reading and the mode string, a recommendation that
    [suggest_geometry] returns carries the [mode] argument unchanged in
    [alignment_mode]; for a mode other than "upwind" and "downwind" the
    call does what the call with "crosswind" does, heading included, except
    that [alignment_mode] is the given string; and the call returns
    whenever wind shear and vorticity read as numbers and the wind
    direction is [None], absent, or reads as a number. *)
Theorem suggest_geometry_echoes_mode (d : pydict) (mode : string)
    (yaw bank aoa : Q) :
  (∀ g, suggest_geometry d mode yaw bank aoa = Some g → alignment_mode g = mode)
  ∧ (mode ≠ "upwind" → mode ≠ "downwind" →
     suggest_geometry d mode yaw bank aoa
     = with_mode mode <$> suggest_geometry d "crosswind" yaw bank aoa)
  ∧ (is_Some (float (get d "wind_shear" (VNum 0.0))) →
     is_Some (float (get d "vorticity" (VNum 0.0))) →
     get d "wind_direction" VNone = VNone
       ∨ is_Some (float (get d "wind_direction" VNone)) →
     is_Some (suggest_geometry d mode yaw bank aoa)).
Proof.
  split; [ | split ].
  - intros g. apply suggest_geometry_mode.
  - intros Hu Hd. unfold suggest_geometry.
    rewrite (heading_from_wind_dir_default _ mode Hu Hd).
    destruct (if is_not_none _ then _ else _) as [h|]; [ | done ].
    cbn [mbind option_bind].
    destruct (float (get d "wind_shear" _)); [ | done ].
    destruct (float (get d "vorticity" _)); done.
  - intros [sh Hsh] [vo Hvo] Hw. unfold suggest_geometry.
    rewrite Hsh, Hvo.
    assert (Hh : is_Some (if is_not_none (get d "wind_direction" VNone)
                          then Some <$> heading_from_wind_dir
                                 (get d "wind_direction" VNone) mode
                          else Some None)).
    { destruct Hw as [-> | [w Hwd]]; [ by eexists | ].
      destruct (is_not_none _); [ | by eexists ].
      unfold heading_from_wind_dir. rewrite Hwd. cbn.
      repeat case_match; by eexists. }
    destruct Hh as [h ->]. by eexists.
Qed.

End WithBuiltins.

Lemma prioritize_targets_spec_witness :
  ∃ scored res rest,
    Forall2 (λ d p, p.1 = d
                    ∧ calculate_risk_score (builtins := no_numeric_strings) d
                      = Some p.2) sample_grid scored
    ∧ prioritize_targets (builtins := no_numeric_strings) sample_grid 2 = Some res
    ∧ Z.of_nat (length res) = Z.min 2 (Z.of_nat (length sample_grid))
    ∧ StronglySorted (descending snd) res
    ∧ (∀ s, with_key snd s res `prefix_of` with_key snd s scored)
    ∧ res ++ rest ≡ₚ scored
    ∧ StronglySorted (descending snd) (res ++ rest)
    ∧ (∀ s, with_key snd s (res ++ rest) = with_key snd s scored).
Proof.
  apply (prioritize_targets_spec (builtins := no_numeric_strings) sample_grid 2).
  - repeat constructor; eexists; vm_compute; reflexivity.
  - lia.
Defined.

(** C2 as stated fails for a negative [top_n]: the slice [[:-1]] drops the
    last entry, so four readings give three pairs, not [min(-1, 4)]. *)
Lemma prioritize_targets_negative_top_n :
  ∃ res,
    prioritize_targets (builtins := no_numeric_strings) sample_grid (-1) = Some res
    ∧ Z.of_nat (length res) ≠ Z.min (-1) (Z.of_nat (length sample_grid)).
Proof.
  eexists. split; [ vm_compute; reflexivity | ]. vm_compute. discriminate.
Qed.

Lemma suggest_geometry_echoes_mode_witness :
  alignment_mode
    <$> suggest_geometry (builtins := no_numeric_strings) calm_reading "orbit"
          10.0 5.0 2.0 = Some "orbit"
  ∧ suggest_geometry (builtins := no_numeric_strings) calm_reading "orbit"
      10.0 5.0 2.0
    = with_mode "orbit"
        <$> suggest_geometry (builtins := no_numeric_strings) calm_reading
              "crosswind" 10.0 5.0 2.0.
Proof.
  destruct (suggest_geometry_echoes_mode (builtins := no_numeric_strings)
              calm_reading "orbit" 10.0 5.0 2.0) as (Hecho & Hcross & Hret).
  destruct Hret as [g Hg];
    [ by eexists | by eexists | right; by eexists | ].
  split.
  - rewrite Hg. cbn. f_equal. by apply Hecho.
  - by apply Hcross.
Defined.


(** The sample grid ranked: the storm first, then the two calm zones in
    input order (wind from 200 before wind from 90), the negative score
    last. *)
Example prioritize_targets_sample :
  (λ res : list (pydict * Q),
     (λ p : pydict * Q, (p.1 !! "wind_direction", p.2)) <$> res)
    <$> prioritize_targets (builtins := no_numeric_strings) sample_grid 4
  = Some [ (None, 1.000); (Some (VNum 200), 0.292); (Some (VNum 90), 0.292);
           (None, -0.125) ].
Proof. vm_compute. reflexivity. Qed.

(** The end-to-end scenario: the storm reading scores 1.0 and passes the
    default threshold. *)
Example should_zoom_scenario :
  should_zoom (builtins := no_numeric_strings) storm_reading 0.65 = Some true.
Proof. vm_compute. reflexivity. Qed.

(** The heading examples of the specification. *)
Example heading_from_wind_dir_examples :
  Qred <$> heading_from_wind_dir (builtins := no_numeric_strings)
             (VNum 200) "upwind" = Some 200
  ∧ Qred <$> heading_from_wind_dir (builtins := no_numeric_strings)
               (VNum 200) "downwind" = Some 20
  ∧ Qred <$> heading_from_wind_dir (builtins := no_numeric_strings)
               (VNum 200) "crosswind" = Some 290.
Proof. vm_compute. done. Qed.

(** No clamp below: a negative CAPE gives a negative score. *)
Example calculate_risk_score_negative :
  calculate_risk_score (builtins := no_numeric_strings) odd_reading = Some (-0.125).
Proof. vm_compute. reflexivity. Qed.

End ZoomFacts.


(* ===================================================================== *)
(** ** aethernet_swarm_controller.py: proofs *)
(* ===================================================================== *)

Module SwarmFacts.
Import Py SwarmController Reference SortFacts.

Lemma not_failed_spec (d : pydict) : not_failed d = negb (has_failed_status d).
Proof.
  unfold not_failed, has_failed_status, get.
  destruct (d !! "status") as [[]|]; done.
Qed.

Lemma filter_not_failed (l : list pydict) :
  List.filter not_failed l = List.filter (λ d, negb (has_failed_status d)) l.
Proof. apply List.filter_ext. intros d. apply not_failed_spec. Qed.

Lemma mode_of_length (n : nat) :
  let m := if (4 <=? n)%nat then "mesh" else "scan" in
  (m = "mesh" ↔ (4 ≤ n)%nat) ∧ (m = "scan" ↔ (n < 4)%nat).
Proof.
  cbv zeta. destruct (Nat.leb_spec 4 n); split; split; (done || lia).
Qed.

(** C3. In the cluster record made by [form_cluster], and in the one
    returned by [reassign_after_failure] for any cluster record whatsoever,
    [mode] is 'mesh' exactly when the record has at least 4 members and
    'scan' exactly when it has fewer; hence the rule holds for every record
    reached from a formation by member updates and failure
    reassignments. *)
Theorem cluster_mode_invariant :
  (∀ cluster_id drone_list,
     members (form_cluster cluster_id drone_list).1 = drone_list
     ∧ mode_rule (form_cluster cluster_id drone_list).1)
  ∧ (∀ cluster, mode_rule (reassign_after_failure cluster).1)
  ∧ (∀ cluster, reachable cluster → mode_rule cluster).
Proof.
  assert (Hform : ∀ cluster_id drone_list,
            mode_rule (form_cluster cluster_id drone_list).1).
  { intros. apply mode_of_length. }
  assert (Hre : ∀ cluster, mode_rule (reassign_after_failure cluster).1).
  { intros. apply mode_of_length. }
  split; [ by split | ]. split; [ done | ].
  induction 1 as [cluster_id drone_list | i d c _ IH | c _ _]; [ done | | done ].
  unfold mode_rule, update_member in *. cbn [members mode].
  by rewrite length_insert.
Qed.

Lemma cluster_mode_invariant_witness :
  mode_rule (reassign_after_failure
               (update_member 1 (<["status" := VStr "failed"]> (unit "D2" 40))
                  healthy_cluster)).1.
Proof.
  apply (proj2 (proj2 cluster_mode_invariant)).
  apply reach_reassign, reach_update. exact (reach_form "Z9" (take 4 fleet)).
Defined.

Lemma length_filter_split {A} (f : A → bool) (l : list A) :
  length l
  = (length (List.filter f l) + length (List.filter (λ x, negb (f x)) l))%nat.
Proof.
  induction l as [|x l IH]; [ done | ].
  cbn. destruct (f x); cbn; lia.
Qed.

(** C4 (amended). [reassign_after_failure] keeps, in their original order,
    exactly the members that are not failed (a member with no status is
    kept); the identity, status and formation of the cluster are unchanged;
    and a warning reporting the number removed is printed exactly when that
    number is not zero: with nothing to remove nothing is printed. *)
Theorem reassign_after_failure_spec (cluster : Cluster) :
  let result := (reassign_after_failure cluster).1 in
  let out := (reassign_after_failure cluster).2 in
  let removed := List.filter has_failed_status (members cluster) in
  members result
    = List.filter (λ d, negb (has_failed_status d)) (members cluster)
  ∧ sublist (members result) (members cluster)
  ∧ (∀ d, d ∈ members result
          ↔ d ∈ members cluster ∧ has_failed_status d = false)
  ∧ id result = id cluster
  ∧ status result = status cluster
  ∧ formation result = formation cluster
  ∧ out = match removed with
          | [] => []
          | _ :: _ => [WarnLost (id cluster) (Z.of_nat (length removed))]
          end.
Proof.
  cbv zeta. cbn [reassign_after_failure fst snd members id status formation].
  rewrite filter_not_failed.
  set (kept := List.filter _ (members cluster)).
  split; [ done | ]. split; [ | split ].
  - subst kept. induction (members cluster) as [|d l IH]; [ done | ].
    cbn. destruct (negb _); by constructor.
  - intros d. subst kept. rewrite !list_elem_of_In, filter_In.
    by rewrite negb_true_iff.
  - repeat split.
    pose proof (length_filter_split has_failed_status (members cluster)) as Hlen.
    fold kept in Hlen.
    destruct (List.filter has_failed_status (members cluster)) as [|d l] eqn:Hrem.
    + cbn in Hlen. by rewrite (proj2 (Nat.eqb_eq _ _)) by lia.
    + cbn [length] in Hlen. rewrite (proj2 (Nat.eqb_neq _ _)) by lia.
      cbn [negb]. do 2 f_equal. cbn [length]. lia.
Qed.

(** C4 as stated fails where no member is failed: the scenario cluster of
    four healthy units prints nothing at all, not an event reporting 0. *)
Lemma reassign_after_failure_silent :
  List.filter has_failed_status (members healthy_cluster) = []
  ∧ (reassign_after_failure healthy_cluster).2 = []
  ∧ ¬ ∃ e, e ∈ (reassign_after_failure healthy_cluster).2.
Proof.
  split; [ vm_compute; reflexivity | ].
  assert (Hout : (reassign_after_failure healthy_cluster).2 = [])
    by (vm_compute; reflexivity).
  split; [ exact Hout | ].
  rewrite Hout. intros [e He]. by apply not_elem_of_nil in He.
Qed.

(** The end-to-end scenario: one of four members failed. *)
Example reassign_after_failure_scenario :
  let '(result, out) := reassign_after_failure damaged_cluster in
  length (members result) = 3%nat ∧ mode result = "scan"
  ∧ out = [WarnLost "Z9" 1].
Proof. vm_compute. done. Qed.

Lemma battery_key (d : pydict) :
  numeric_battery d → get d "battery" (VNum 100) = VNum (battery_or_100 d).
Proof.
  unfold numeric_battery, battery_or_100, get.
  destruct (d !! "battery") as [[]|]; done.
Qed.

(** C9. For units whose battery, when present, is a number,
    [recommend_rotation_schedule] returns the same units in ascending
    order of battery, a unit without battery counting as 100, and units of
    equal battery keep their original relative order; so whatever follows
    a unit without battery has battery 100 or more. *)
Theorem recommend_rotation_schedule_spec (drones : list pydict) :
  Forall numeric_battery drones →
  ∃ res,
    recommend_rotation_schedule drones = Some res
    ∧ res ≡ₚ drones
    ∧ StronglySorted (ascending battery_or_100) res
    ∧ (∀ q, with_key battery_or_100 q res = with_key battery_or_100 q drones)
    ∧ (∀ l1 d l2, res = l1 ++ d :: l2 → d !! "battery" = None →
         Forall (λ d', 100 <= battery_or_100 d') l2).
Proof.
  intros Hnum. exists (sorted_by battery_or_100 false drones).
  split; [ | split; [ | split; [ | split ] ] ].
  - unfold recommend_rotation_schedule. apply sorted_numeric.
    unfold numeric_keys. eapply Forall_impl; [ exact Hnum | ].
    intros d. apply battery_key.
  - apply sorted_by_Permutation.
  - apply sorted_by_ascending.
  - intros q. apply sorted_by_stable.
  - intros l1 d l2 Hres Hd.
    pose proof (sorted_by_ascending battery_or_100 drones) as Hs.
    rewrite Hres in Hs. apply StronglySorted_app_1_r in Hs.
    apply StronglySorted_inv in Hs as [_ Hs].
    eapply Forall_impl; [ exact Hs | ].
    intros d'. unfold ascending, battery_or_100 at 1. by rewrite Hd.
Qed.

Lemma recommend_rotation_schedule_spec_witness :
  ∃ res,
    recommend_rotation_schedule fleet = Some res
    ∧ res ≡ₚ fleet
    ∧ StronglySorted (ascending battery_or_100) res
    ∧ (∀ q, with_key battery_or_100 q res = with_key battery_or_100 q fleet)
    ∧ (∀ l1 d l2, res = l1 ++ d :: l2 → d !! "battery" = None →
         Forall (λ d', 100 <= battery_or_100 d') l2).
Proof.
  apply (recommend_rotation_schedule_spec fleet).
  repeat constructor.
Defined.

(** The rotation plan of the scenario: lowest battery first, the unit
    without battery last. *)
Example recommend_rotation_schedule_scenario :
  (λ l, (λ d : pydict, d !! "id") <$> l) <$> recommend_rotation_schedule fleet
  = Some (Some <$> [VStr "D5"; VStr "D2"; VStr "D4"; VStr "D1"; VStr "D3";
                    VStr "D6"]).
Proof. vm_compute. reflexivity. Qed.

End SwarmFacts.

(* ===================================================================== *)
(** ** aethernet_ai_feedback_loop.py: proofs *)
(* ===================================================================== *)

Module AiFacts.
Import Py AiFeedbackLoop Reference.

Lemma mapM_bind_compose {A B C} (f : A → option B) (g : B → option C)
    (l : list A) :
  mapM f l ≫= mapM g = mapM (λ x, f x ≫= g) l.
Proof.
  induction l as [|x l IH]; [ done | ]. cbn.
  destruct (f x) as [b|]; cbn; [ | done ].
  rewrite <- IH. destruct (mapM f l) as [bs|]; cbn; [ done | ].
  by destruct (g b).
Qed.

Lemma mapM_fmap_compose {A B C} (f : B → option C) (g : A → B) (l : list A) :
  mapM f (g <$> l) = mapM (λ x, f (g x)) l.
Proof. induction l as [|x l IH]; [ done | ]. cbn. by rewrite IH. Qed.

Lemma distinct_lt_2 (y : list Z) :
  (∀ a b, a ∈ y → b ∈ y → a = b) → (distinct y < 2)%nat.
Proof.
  intros Hy. unfold distinct. destruct y as [|a y].
  - cbn. rewrite size_empty. lia.
  - assert (Hset : (list_to_set (a :: y) : gset Z) = {[ a ]}).
    { apply set_eq. intros x.
      rewrite elem_of_list_to_set, elem_of_singleton. split.
      - intros Hx. apply Hy; [ done | by left ].
      - intros ->. by left. }
    rewrite Hset, size_singleton. lia.
Qed.

Section WithLibraries.
Context `{builtins : Builtins, numpy : Numpy, sklearn : Sklearn}.

Lemma preprocess_step_row features labels (entry : pydict) :
  preprocess_step (features, labels) entry
  = row ← raw_row entry;
    Some (features ++ [row], labels ++ [raw_label entry]).
Proof.
  unfold preprocess_step, raw_row.
  by destruct (_extract_angle_features entry).
Qed.

Lemma preprocess_loop_None (dataset : list pydict) :
  foldl (λ acc entry, a ← acc; preprocess_step a entry) None dataset = None.
Proof. by induction dataset. Qed.

Lemma preprocess_loop (dataset : list pydict) features labels :
  foldl (λ acc entry, a ← acc; preprocess_step a entry)
        (Some (features, labels)) dataset
  = rows ← mapM raw_row dataset;
    Some (features ++ rows, labels ++ (raw_label <$> dataset)).
Proof.
  revert features labels.
  induction dataset as [|entry dataset IH]; intros features labels.
  - cbn. by rewrite !app_nil_r.
  - cbn [foldl mbind option_bind mapM]. rewrite preprocess_step_row.
    destruct (raw_row entry) as [row|]; cbn [mbind option_bind].
    + rewrite IH. destruct (mapM raw_row dataset) as [rows|];
        cbn [mbind option_bind mret option_ret fmap list_fmap]; [ | done ].
      by rewrite <- !app_assoc.
    + apply preprocess_loop_None.
Qed.

Lemma vectorize_scan_row (entry : pydict) :
  _vectorize_scan entry = row ← raw_row entry ≫= mapM np_float; Some [row].
Proof.
  unfold _vectorize_scan, raw_row.
  destruct (_extract_angle_features entry) as [ang|];
    cbn [fmap option_fmap option_map mbind option_bind]; [ | done ].
  set (row := _ ++ tuple_list ang). cbn [mapM].
  by destruct (mapM np_float row).
Qed.

Lemma tuple_list_length t : length (tuple_list t) = 7%nat.
Proof. by destruct t as [[[[[[??]?]?]?]?]?]. Qed.

(** C8. The feature matrix [preprocess] builds for a dataset is, row for
    row, the single row [_vectorize_scan] builds for the same record (and
    [preprocess] fails exactly when one of those rows, or a label, cannot
    be built); that row, used by [predict_next_focus] at inference time,
    has 12 components: the 5 sensor features, 0.0 when absent, in the order
    CAPE, vorticity, humidity, vertical_velocity, anomaly_score, followed
    by the 7 features of [_extract_angle_features]. *)
Theorem features_same_at_training_and_inference (dataset : list pydict) :
  preprocess dataset
  = (X ← mapM (λ entry, m ← _vectorize_scan entry; m !! 0%nat) dataset;
     y ← mapM (λ entry, np_int (get entry "storm_formed" (VNum 0))) dataset;
     Some (X, y))
  ∧ ∀ entry m, _vectorize_scan entry = Some m →
      ∃ ang row,
        _extract_angle_features entry = Some ang
        ∧ mapM np_float
            ([ get entry "CAPE" (VNum 0.0);
               get entry "vorticity" (VNum 0.0);
               get entry "humidity" (VNum 0.0);
               get entry "vertical_velocity" (VNum 0.0);
               get entry "anomaly_score" (VNum 0.0) ] ++ tuple_list ang)
          = Some row
        ∧ m = [row] ∧ length row = 12%nat.
Proof.
  split.
  - unfold preprocess. rewrite preprocess_loop. cbn [app].
    rewrite (mapM_ext _ (λ entry, raw_row entry ≫= mapM np_float)); last first.
    { intros entry. rewrite vectorize_scan_row.
      by destruct (raw_row entry ≫= mapM np_float). }
    rewrite <- mapM_bind_compose.
    destruct (mapM raw_row dataset) as [rows|]; cbn [mbind option_bind];
      [ | done ].
    by rewrite mapM_fmap_compose.
  - intros entry m Hm. rewrite vectorize_scan_row in Hm. unfold raw_row in Hm.
    destruct (_extract_angle_features entry) as [ang|]; [ | done ].
    cbn [fmap option_fmap option_map mbind option_bind] in Hm.
    destruct (mapM np_float _) as [row|] eqn:Hrow; [ | done ].
    injection Hm as <-. exists ang, row. repeat split; [ done | ].
    apply length_mapM in Hrow. rewrite <- Hrow.
    rewrite length_app, tuple_list_length. done.
Qed.

(** C7. When the labels [preprocess] extracts from the dataset hold fewer
    than 2 distinct values, [train] prints the warning and returns
    normally, leaving the instance (the model and the [is_trained] flag)
    and the random generator as they were. *)
Theorem train_skips_without_diversity (dataset : list pydict) (w : world)
    (X : matrix) (y : list Z) :
  preprocess dataset = Some (X, y) →
  (∀ a b, a ∈ y → b ∈ y → a = b) →
  train dataset w
  = (Some (), {| self := self w; rng := rng w;
                 out := out w ++ [WarnNoDiversity] |}).
Proof.
  intros Hpre Hy. unfold train, bind, lift. rewrite Hpre.
  apply distinct_lt_2, Nat.ltb_lt in Hy. cbv beta iota. by rewrite Hy.
Qed.

(** C6. [retrain_on_outcome] with [success = True] only prints: the
    instance and the random generator are untouched; with
    [success = False] it prints and then runs [train] on the dataset. *)
Theorem retrain_on_outcome_spec (original_dataset : list pydict) (w : world) :
  retrain_on_outcome original_dataset true w
  = (Some (), {| self := self w; rng := rng w;
                 out := out w ++ [OutcomeMatch] |})
  ∧ retrain_on_outcome original_dataset false w
    = train original_dataset
        {| self := self w; rng := rng w; out := out w ++ [OutcomeMismatch] |}.
Proof. split; reflexivity. Qed.

Lemma train_flag (dataset : list pydict) (w : world) :
  is_trained (self (train dataset w).2) = true →
  is_trained (self w) = true ∨ (train dataset w).1 = Some ().
Proof.
  unfold train, bind, lift.
  destruct (preprocess dataset) as [[X y]|]; cbv beta iota; [ | by left ].
  destruct (distinct y <? 2)%nat; [ by right | ].
  unfold split.
  destruct (train_test_split (rng w) X y) as [[[[[Xt Xv] yt] yv]|] g];
    cbv beta iota; [ | by left ].
  unfold model_fit. cbn [self model is_trained rng out].
  destruct (fit (model (self w)) Xt yt) as [[[]|] m]; cbv beta iota;
    [ | by left ].
  unfold model_predict. cbn [self model is_trained rng out].
  destruct (predict m Xv) as [pred|]; cbv beta iota; [ | by left ].
  destruct (accuracy_score yv pred) as [acc|]; cbv beta iota;
    [ by right | by left ].
Qed.

(** C5. While [is_trained] is false, [predict_next_focus] prints the
    fallback notice, changes nothing else, and returns whether
    CAPE > 1500 and vorticity > 0.0005 (an absent feature reads as 0);
    once [is_trained] is true it returns the truth value of the model's
    prediction for the row of [_vectorize_scan], and prints nothing.  The
    flag starts false and only a call of [train] that returns normally can
    make it true. *)
Theorem predict_next_focus_spec (current_scan : pydict) (w : world) :
  (is_trained (self w) = false →
   ∀ cape vort,
     get current_scan "CAPE" (VNum 0) = VNum cape →
     get current_scan "vorticity" (VNum 0) = VNum vort →
     ∃ b, predict_next_focus current_scan w
          = (Some b, {| self := self w; rng := rng w;
                        out := out w ++ [NoticeFallback] |})
          ∧ (b = true ↔ 1500 < cape ∧ 0.0005 < vort))
  ∧ (is_trained (self w) = true →
     predict_next_focus current_scan w
     = (features ← _vectorize_scan current_scan;
        predictions ← predict (model (self w)) features;
        prediction ← predictions !! 0%nat;
        Some (negb (prediction =? 0)%Z), w))
  ∧ is_trained __init__ = false
  ∧ (∀ dataset,
       is_trained (self (train dataset w).2) = true →
       is_trained (self w) = true ∨ (train dataset w).1 = Some ()).
Proof.
  split; [ | split; [ | split ] ].
  - intros Hu cape vort Hc Hv.
    exists (Qltb 1500 cape && Qltb 0.0005 vort). split.
    + unfold predict_next_focus, bind, get_is_trained. rewrite Hu.
      unfold print, lift, fallback_rule. cbn. rewrite Hc, Hv. cbn.
      by destruct (Qltb 1500 cape).
    + rewrite andb_true_iff, !SortFacts.Qltb_lt. done.
  - intros Ht. unfold predict_next_focus, bind, get_is_trained. rewrite Ht.
    unfold lift, model_predict, ret. cbn.
    destruct (_vectorize_scan current_scan) as [features|]; cbn; [ | done ].
    destruct (predict (model (self w)) features) as [ps|]; cbn; [ | done ].
    by destruct (ps !! 0%nat).
  - done.
  - intros dataset. apply train_flag.
Qed.

End WithLibraries.

Lemma features_same_at_training_and_inference_witness :
  ∃ m ang row,
    _vectorize_scan (builtins := no_numeric_strings) (numpy := numbers_only)
      calm_reading = Some m
    ∧ _extract_angle_features (builtins := no_numeric_strings) calm_reading
      = Some ang
    ∧ mapM (np_float (Numpy := numbers_only))
        ([ get calm_reading "CAPE" (VNum 0.0);
           get calm_reading "vorticity" (VNum 0.0);
           get calm_reading "humidity" (VNum 0.0);
           get calm_reading "vertical_velocity" (VNum 0.0);
           get calm_reading "anomaly_score" (VNum 0.0) ] ++ tuple_list ang)
      = Some row
    ∧ m = [row]
    ∧ length row = 12%nat.
Proof.
  destruct (_vectorize_scan (builtins := no_numeric_strings)
              (numpy := numbers_only) calm_reading) as [m|] eqn:Hm;
    [ | by vm_compute in Hm ].
  destruct (proj2 (features_same_at_training_and_inference
                     (builtins := no_numeric_strings) (numpy := numbers_only)
                     [calm_reading]) calm_reading m Hm)
    as (ang & row & Hang & Hrow & Hrows & Hlen).
  by exists m, ang, row.
Defined.

Lemma train_skips_without_diversity_witness :
  train (builtins := no_numeric_strings) (numpy := numbers_only)
    one_sided_dataset fresh_world
  = (Some (), {| self := self fresh_world; rng := rng fresh_world;
                 out := out fresh_world ++ [WarnNoDiversity] |}).
Proof.
  destruct (preprocess (builtins := no_numeric_strings)
              (numpy := numbers_only) one_sided_dataset)
    as [[X y]|] eqn:Hpre; [ | by vm_compute in Hpre ].
  apply (train_skips_without_diversity (builtins := no_numeric_strings)
           (numpy := numbers_only) one_sided_dataset fresh_world X y Hpre).
  vm_compute in Hpre. injection Hpre as _ <-.
  intros a b Ha Hb. apply list_elem_of_In in Ha, Hb.
  destruct Ha as [<-|[<-|[]]], Hb as [<-|[<-|[]]]; reflexivity.
Defined.

Lemma predict_next_focus_spec_witness :
  (∃ b, predict_next_focus (builtins := no_numeric_strings)
          (numpy := numbers_only) calm_reading fresh_world
        = (Some b, {| self := self fresh_world; rng := rng fresh_world;
                      out := out fresh_world ++ [NoticeFallback] |})
        ∧ (b = true ↔ 1500 < 2000 ∧ 0.0005 < 0.001))
  ∧ predict_next_focus (builtins := no_numeric_strings)
      (numpy := numbers_only) calm_reading trained_world
    = (Some true, trained_world).
Proof.
  split.
  - by apply (predict_next_focus_spec (builtins := no_numeric_strings)
                (numpy := numbers_only) calm_reading fresh_world).
  - by rewrite (proj1 (proj2 (predict_next_focus_spec
                  (builtins := no_numeric_strings) (numpy := numbers_only)
                  calm_reading trained_world))).
Defined.

End AiFacts.

(* ===================================================================== *)
(** ** More facts about the builtins *)
(* ===================================================================== *)

Module PyMore.
Import Py PyFacts.

Lemma Qfloor_unique (q : Q) (z : Z) :
  inject_Z z <= q → q < inject_Z (z + 1) → Qfloor q = z.
Proof.
  intros Hlo Hhi.
  pose proof (Qfloor_le q) as H1. pose proof (Qlt_floor q) as H2.
  assert (inject_Z z < inject_Z (Qfloor q + 1)) as Ha
    by (eapply Qle_lt_trans; eassumption).
  assert (inject_Z (Qfloor q) < inject_Z (z + 1)) as Hb
    by (eapply Qle_lt_trans; eassumption).
  rewrite <- Zlt_Qlt in Ha, Hb. lia.
Qed.

#[global] Instance fmod_proper : Proper (Qeq ==> Qeq ==> Qeq) fmod.
Proof.
  intros x x' Hx m m' Hm. unfold fmod.
  assert (Hf : Qfloor (x / m) = Qfloor (x' / m')).
  { apply Qfloor_comp. by rewrite Hx, Hm. }
  rewrite Hf, Hx, Hm. reflexivity.
Qed.

Lemma fmod_range (x m : Q) : 0 < m → 0 <= fmod x m ∧ fmod x m < m.
Proof.
  intros Hm. unfold fmod.
  pose proof (Qfloor_le (x / m)) as Hlo. pose proof (Qlt_floor (x / m)) as Hhi.
  rewrite inject_Z_plus in Hhi. change (inject_Z 1) with 1 in Hhi.
  assert (Hx : x == (x / m) * m) by (field; lra).
  set (f := inject_Z (Qfloor (x / m))) in *.
  set (q := x / m) in *.
  split.
  - assert (f * m <= q * m) by (apply Qmult_le_compat_r; lra). lra.
  - assert (q * m < (f + 1) * m) by (apply Qmult_lt_r; lra). lra.
Qed.

Lemma fmod_small (x m : Q) : 0 <= x → x < m → fmod x m == x.
Proof.
  intros H0 Hm. unfold fmod.
  assert (Hf : Qfloor (x / m) = 0%Z).
  { apply Qfloor_unique.
    - change (inject_Z 0) with 0. apply Qle_shift_div_l; lra.
    - change (inject_Z (0 + 1)) with 1. apply Qlt_shift_div_r; lra. }
  rewrite Hf. change (inject_Z 0) with 0. ring.
Qed.

Lemma fmod_add_period (x m : Q) (k : Z) :
  0 < m → fmod (x + inject_Z k * m) m == fmod x m.
Proof.
  intros Hm. unfold fmod.
  assert (Hf : Qfloor ((x + inject_Z k * m) / m) = (Qfloor (x / m) + k)%Z).
  { apply Qfloor_unique.
    - rewrite inject_Z_plus.
      pose proof (Qfloor_le (x / m)).
      assert ((x + inject_Z k * m) / m == x / m + inject_Z k) as -> by (field; lra).
      lra.
    - rewrite !inject_Z_plus. change (inject_Z 1) with 1.
      pose proof (Qlt_floor (x / m)) as Hhi.
      rewrite inject_Z_plus in Hhi. change (inject_Z 1) with 1 in Hhi.
      assert ((x + inject_Z k * m) / m == x / m + inject_Z k) as -> by (field; lra).
      lra. }
  rewrite Hf, inject_Z_plus. ring.
Qed.

Lemma fmod_fmod_add (x y m : Q) :
  0 < m → fmod (fmod x m + y) m == fmod (x + y) m.
Proof.
  intros Hm.
  assert (Hx : fmod x m + y == (x + y) + inject_Z (- Qfloor (x / m)) * m).
  { unfold fmod. rewrite inject_Z_opp. ring. }
  rewrite Hx, fmod_add_period by done. reflexivity.
Qed.

Lemma round_half_even_mono (x y : Q) :
  x <= y → (round_half_even x ≤ round_half_even y)%Z.
Proof.
  intros Hxy.
  pose proof (Qfloor_resp_le _ _ Hxy) as Hf.
  destruct (Z.eq_dec (Qfloor x) (Qfloor y)) as [Heq | Hne].
  - unfold round_half_even. cbv zeta. rewrite Heq.
    destruct (Qcompare (x - inject_Z (Qfloor y)) (1 # 2)) eqn:Hx;
      destruct (Qcompare (y - inject_Z (Qfloor y)) (1 # 2)) eqn:Hy;
      try (destruct (Z.even (Qfloor y))); try lia; exfalso;
      first [ apply Qeq_alt in Hx | apply Qlt_alt in Hx | apply Qgt_alt in Hx ];
      first [ apply Qeq_alt in Hy | apply Qlt_alt in Hy | apply Qgt_alt in Hy ];
      lra.
  - assert (Hx : (round_half_even x ≤ Qfloor x + 1)%Z).
    { unfold round_half_even. cbv zeta.
      destruct (Qcompare _ _); [ destruct (Z.even _) | | ]; lia. }
    assert (Hy : (Qfloor y ≤ round_half_even y)%Z).
    { unfold round_half_even. cbv zeta.
      destruct (Qcompare _ _); [ destruct (Z.even _) | | ]; lia. }
    lia.
Qed.

Lemma round_mono (x y : Q) (n : nat) : x <= y → round x n <= round y n.
Proof.
  intros Hxy. unfold round.
  assert (Hm : (round_half_even (x * inject_Z (Z.pos (pow10 n)))
                ≤ round_half_even (y * inject_Z (Z.pos (pow10 n))))%Z).
  { apply round_half_even_mono.
    apply Qmult_le_compat_r; [ done | ]. unfold Qle; simpl; lia. }
  unfold Qle. simpl. nia.
Qed.

End PyMore.

(* ===================================================================== *)
(** ** aethernet_zoom_targeting.py: further properties *)
(* ===================================================================== *)

Module ZoomMore.
Import Py ZoomTargeting Reference PyFacts SortFacts ZoomFacts PyMore.

Lemma clamp_mono (x y cap : Q) : 0 < cap → x <= y → clamp x cap <= clamp y cap.
Proof.
  intros Hc Hxy. unfold clamp. apply Q.min_le_compat_r.
  unfold Qdiv. apply Qmult_le_compat_r; [ done | ].
  apply Qlt_le_weak, Qinv_lt_0_compat, Hc.
Qed.

Lemma weighted_sum_unit (c v h vv a : Q) :
  0 <= c → 0 <= v → 0 <= h → 0 <= vv → 0 <= a →
  0 <= weighted_sum c v h vv a ∧ weighted_sum c v h vv a <= 1.
Proof.
  intros. unfold weighted_sum.
  pose proof (clamp_le_1 c 4000). pose proof (clamp_le_1 v 0.0015).
  pose proof (clamp_le_1 h 1.0). pose proof (clamp_le_1 vv 3.0).
  pose proof (clamp_le_1 a 1.0).
  pose proof (clamp_nonneg c 4000). pose proof (clamp_nonneg v 0.0015).
  pose proof (clamp_nonneg h 1.0). pose proof (clamp_nonneg vv 3.0).
  pose proof (clamp_nonneg a 1.0). split; lra.
Qed.

Lemma StronglySorted_lookup {A} (R : relation A) (l : list A) i j x y :
  StronglySorted R l → (i < j)%nat → l !! i = Some x → l !! j = Some y → R x y.
Proof.
  intros Hl. revert i j. induction Hl as [|z l Hl IH Hz]; intros i j Hij Hi Hj.
  - done.
  - destruct j as [|j]; [ lia | ]. cbn in Hj.
    destruct i as [|i]; cbn in Hi.
    + injection Hi as ->. rewrite Forall_forall in Hz.
      apply Hz. by eapply list_elem_of_lookup_2.
    + eapply IH; [ | done | done ]. lia.
Qed.

Section WithBuiltins.
Context `{builtins : Builtins}.

(** The score as one chain of reads. *)
Lemma calculate_risk_score_chain (d : pydict) :
  calculate_risk_score d
  = (c ← float (get d "CAPE" (VNum 0.0));
     v ← float (get d "vorticity" (VNum 0.0));
     h ← float (get d "humidity" (VNum 0.0));
     vv ← float (get d "vertical_velocity" (VNum 0.0));
     a ← float (get d "anomaly_score" (VNum 0.0));
     Some (round (weighted_sum c v h vv a) 3)).
Proof.
  destruct (float (get d "CAPE" (VNum 0.0))) as [c|] eqn:Hc;
  destruct (float (get d "vorticity" (VNum 0.0))) as [v|] eqn:Hv;
  destruct (float (get d "humidity" (VNum 0.0))) as [h|] eqn:Hh;
  destruct (float (get d "vertical_velocity" (VNum 0.0))) as [vv|] eqn:Hvv;
  destruct (float (get d "anomaly_score" (VNum 0.0))) as [a|] eqn:Ha;
    try (by apply calculate_risk_score_eq);
    unfold calculate_risk_score, weights; cbn [foldl];
    unfold risk_step; cbn [mbind option_bind];
    rewrite ?Hc, ?Hv, ?Hh, ?Hvv, ?Ha; cbn [mbind option_bind];
    change (norm !! "CAPE") with (Some (4000 : Q));
    change (norm !! "vorticity") with (Some 0.0015);
    change (norm !! "humidity") with (Some 1.0);
    change (norm !! "vertical_velocity") with (Some 3.0);
    change (norm !! "anomaly_score") with (Some 1.0);
    cbn [mbind option_bind];
    rewrite ?Hc, ?Hv, ?Hh, ?Hvv, ?Ha; reflexivity.
Qed.

(** X1. [calculate_risk_score] reads nothing but the five feature keys: two
    readings that agree on them get the same result, whatever else they
    hold; and it raises exactly when one of the five values cannot be
    converted by [float]. *)
Theorem calculate_risk_score_reads_five_keys (d d' : pydict) :
  ((∀ k, k ∈ ["CAPE"; "vorticity"; "humidity"; "vertical_velocity";
              "anomaly_score"] → d !! k = d' !! k) →
   calculate_risk_score d = calculate_risk_score d')
  ∧ (calculate_risk_score d = None
     ↔ ∃ k, k ∈ ["CAPE"; "vorticity"; "humidity"; "vertical_velocity";
                 "anomaly_score"]
            ∧ float (get d k (VNum 0.0)) = None).
Proof.
  split.
  - intros Hk. rewrite !calculate_risk_score_chain. unfold get.
    rewrite <- (Hk "CAPE"), <- (Hk "vorticity"), <- (Hk "humidity"),
      <- (Hk "vertical_velocity"), <- (Hk "anomaly_score");
      [ done | apply list_elem_of_In; cbn; tauto .. ].
  - rewrite calculate_risk_score_chain. split.
    + intros Hnone.
      destruct (float (get d "CAPE" _)) eqn:Hc;
        [ | exists "CAPE"; split; [ apply list_elem_of_In; cbn; tauto | done ] ].
      destruct (float (get d "vorticity" _)) eqn:Hv;
        [ | exists "vorticity"; split; [ apply list_elem_of_In; cbn; tauto | done ] ].
      destruct (float (get d "humidity" _)) eqn:Hh;
        [ | exists "humidity"; split; [ apply list_elem_of_In; cbn; tauto | done ] ].
      destruct (float (get d "vertical_velocity" _)) eqn:Hvv;
        [ | exists "vertical_velocity"; split; [ apply list_elem_of_In; cbn; tauto | done ] ].
      destruct (float (get d "anomaly_score" _)) eqn:Ha;
        [ done | exists "anomaly_score"; split; [ apply list_elem_of_In; cbn; tauto | done ] ].
    + intros (k & Hk & Hnone).
      repeat (apply elem_of_cons in Hk as [-> | Hk]);
        [ .. | by apply not_elem_of_nil in Hk ];
        rewrite ?Hnone; cbn;
        repeat (match goal with
                | |- context [float ?v] => destruct (float v); cbn
                end; try done); rewrite ?Hnone; done.
Qed.

(** X2. Raising a feature never lowers the score. *)
Theorem calculate_risk_score_monotone (d d' : pydict)
    (c v h vv a c' v' h' vv' a' : Q) :
  float (get d "CAPE" (VNum 0.0)) = Some c →
  float (get d "vorticity" (VNum 0.0)) = Some v →
  float (get d "humidity" (VNum 0.0)) = Some h →
  float (get d "vertical_velocity" (VNum 0.0)) = Some vv →
  float (get d "anomaly_score" (VNum 0.0)) = Some a →
  float (get d' "CAPE" (VNum 0.0)) = Some c' →
  float (get d' "vorticity" (VNum 0.0)) = Some v' →
  float (get d' "humidity" (VNum 0.0)) = Some h' →
  float (get d' "vertical_velocity" (VNum 0.0)) = Some vv' →
  float (get d' "anomaly_score" (VNum 0.0)) = Some a' →
  c <= c' → v <= v' → h <= h' → vv <= vv' → a <= a' →
  ∃ s s', calculate_risk_score d = Some s
          ∧ calculate_risk_score d' = Some s'
          ∧ s <= s'.
Proof.
  intros Hc Hv Hh Hvv Ha Hc' Hv' Hh' Hvv' Ha' Lc Lv Lh Lvv La.
  exists (round (weighted_sum c v h vv a) 3),
    (round (weighted_sum c' v' h' vv' a') 3).
  split; [ by apply calculate_risk_score_eq | ].
  split; [ by apply calculate_risk_score_eq | ].
  apply round_mono. unfold weighted_sum.
  pose proof (clamp_mono c c' 4000). pose proof (clamp_mono v v' 0.0015).
  pose proof (clamp_mono h h' 1.0). pose proof (clamp_mono vv vv' 3.0).
  pose proof (clamp_mono a a' 1.0). lra.
Qed.

Lemma score_unit_interval (d : pydict) (c v h vv a : Q) :
  float (get d "CAPE" (VNum 0.0)) = Some c →
  float (get d "vorticity" (VNum 0.0)) = Some v →
  float (get d "humidity" (VNum 0.0)) = Some h →
  float (get d "vertical_velocity" (VNum 0.0)) = Some vv →
  float (get d "anomaly_score" (VNum 0.0)) = Some a →
  0 <= c → 0 <= v → 0 <= h → 0 <= vv → 0 <= a →
  ∃ s, calculate_risk_score d = Some s ∧ 0 <= s ∧ s <= 1.
Proof.
  intros Hc Hv Hh Hvv Ha ? ? ? ? ?.
  eexists. split; [ by apply calculate_risk_score_eq | ].
  apply round_unit_interval; by apply weighted_sum_unit.
Qed.

Lemma should_zoom_true (d : pydict) (thr s : Q) :
  calculate_risk_score d = Some s →
  (should_zoom d thr = Some true ↔ thr <= s).
Proof.
  intros Hs. unfold should_zoom. rewrite Hs. cbn.
  rewrite <- Qle_bool_iff. split; [ by intros [= ->] | by intros -> ].
Qed.

(** X3. [should_zoom] gets easier as the threshold drops; for a reading with
    non-negative features a threshold of 0 or less always zooms and a
    threshold above 1 never does. *)
Theorem should_zoom_thresholds (d : pydict) (c v h vv a thr thr' : Q) :
  float (get d "CAPE" (VNum 0.0)) = Some c →
  float (get d "vorticity" (VNum 0.0)) = Some v →
  float (get d "humidity" (VNum 0.0)) = Some h →
  float (get d "vertical_velocity" (VNum 0.0)) = Some vv →
  float (get d "anomaly_score" (VNum 0.0)) = Some a →
  (thr' <= thr → should_zoom d thr = Some true → should_zoom d thr' = Some true)
  ∧ (0 <= c → 0 <= v → 0 <= h → 0 <= vv → 0 <= a →
     (thr <= 0 → should_zoom d thr = Some true)
     ∧ (1 < thr → should_zoom d thr = Some false)).
Proof.
  intros Hc Hv Hh Hvv Ha.
  pose proof (calculate_risk_score_eq d c v h vv a Hc Hv Hh Hvv Ha) as Hs.
  split.
  - intros Hle. rewrite !(should_zoom_true d _ _ Hs). lra.
  - intros ? ? ? ? ?.
    destruct (score_unit_interval d c v h vv a) as (s & Hs' & Hlo & Hhi);
      try done.
    split.
    + intros Hthr. apply (should_zoom_true d _ _ Hs'). lra.
    + intros Hthr. unfold should_zoom. rewrite Hs'. cbn. f_equal.
      apply not_true_iff_false. rewrite Qle_bool_iff. lra.
Qed.

(** X4. [prioritize_targets] raises exactly when some reading of the grid
    cannot be scored, whatever [top_n] is: also a reading that would not
    make the cut, and also for [top_n] 0. *)
Theorem prioritize_targets_raises (grid : list pydict) (top_n : Z) :
  prioritize_targets grid top_n = None
  ↔ Exists (λ d, calculate_risk_score d = None) grid.
Proof.
  unfold prioritize_targets.
  destruct (mapM score_pair grid) as [scored|] eqn:Hs; cbn [mbind option_bind].
  - rewrite (sorted_numeric _ snd);
      [ | unfold numeric_keys; by apply Forall_forall ].
    cbn [mbind option_bind]. split; [ done | ].
    intros Hex. apply mapM_Some in Hs.
    apply Exists_exists in Hex as (d & Hd & Hnone).
    apply list_elem_of_lookup in Hd as [i Hi].
    destruct (Forall2_lookup_l _ _ _ _ _ Hs Hi) as (p & _ & Hp).
    unfold score_pair in Hp. by rewrite Hnone in Hp.
  - split; [ intros _ | done ].
    apply mapM_None in Hs. eapply Exists_impl; [ exact Hs | ].
    intros d. unfold score_pair. by destruct (calculate_risk_score d).
Qed.


(** X6. Zoom decisions follow the ranking: if an entry returned by
    [prioritize_targets] passes [should_zoom] at some threshold, so does
    every entry placed before it. *)
Theorem should_zoom_along_ranking (grid : list pydict) (top_n : Z)
    (res : list (pydict * Q)) (thr : Q) (i j : nat) (p q : pydict * Q) :
  prioritize_targets grid top_n = Some res →
  (i ≤ j)%nat → res !! i = Some p → res !! j = Some q →
  should_zoom q.1 thr = Some true →
  should_zoom p.1 thr = Some true.
Proof.
  intros Hres Hij Hp Hq Hzoom.
  destruct (mapM score_pair grid) as [scored|] eqn:Hs; last first.
  { unfold prioritize_targets in Hres. by rewrite Hs in Hres. }
  rewrite (prioritize_targets_sorted _ _ _ Hs) in Hres. injection Hres as <-.
  set (ranking := sorted_by snd true scored) in *.
  assert (Hpre : slice_to ranking top_n `prefix_of` ranking)
    by (unfold slice_to; destruct (0 <=? top_n)%Z; apply prefix_take).
  assert (Hscore : ∀ r, r ∈ ranking → calculate_risk_score r.1 = Some r.2).
  { intros r Hr. unfold ranking in Hr.
    rewrite (sorted_by_Permutation snd true scored) in Hr.
    apply mapM_Some in Hs. apply list_elem_of_lookup in Hr as [n Hn].
    destruct (Forall2_lookup_r _ _ _ _ _ Hs Hn) as (d & _ & Hd).
    by apply score_pair_Some in Hd as [<- ?]. }
  pose proof (prefix_lookup_Some _ _ _ _ Hp Hpre) as Hp'.
  pose proof (prefix_lookup_Some _ _ _ _ Hq Hpre) as Hq'.
  assert (Hpq : q.2 <= p.2).
  { destruct (decide (i = j)) as [-> | Hne].
    - rewrite Hp' in Hq'. injection Hq' as ->. lra.
    - eapply (StronglySorted_lookup (descending snd) ranking i j p q);
        [ apply sorted_by_descending | lia | done | done ]. }
  apply (should_zoom_true _ thr _ (Hscore q (list_elem_of_lookup_2 _ _ _ Hq')))
    in Hzoom.
  apply (should_zoom_true _ thr _ (Hscore p (list_elem_of_lookup_2 _ _ _ Hp'))).
  lra.
Qed.

Lemma heading_from_wind_dir_num (w : Q) (mode : string) :
  heading_from_wind_dir (VNum w) mode
  = Some (if String.eqb mode "upwind" then fmod (w + 360.0) 360.0
          else if String.eqb mode "downwind"
               then fmod (fmod (w + 360.0) 360.0 + 180.0) 360.0
               else fmod (fmod (w + 360.0) 360.0 + 90.0) 360.0).
Proof.
  unfold heading_from_wind_dir. cbn.
  by repeat destruct (String.eqb _ _).
Qed.

Lemma heading_from_wind_dir_bounds (wind : pyval) (mode : string) (h : Q) :
  heading_from_wind_dir wind mode = Some h → 0 <= h ∧ h < 360.
Proof.
  unfold heading_from_wind_dir.
  destruct (float wind) as [w|]; cbn [mbind option_bind]; last done.
  intros Hh.
  assert (Hr : ∀ x, 0 <= fmod x 360.0 ∧ fmod x 360.0 < 360)
    by (intros x; destruct (fmod_range x 360.0); [ lra | split; lra ]).
  repeat destruct (String.eqb _ _); injection Hh as <-; apply Hr.
Qed.




End WithBuiltins.
(** *** The theorems above at the sample readings *)

Lemma calculate_risk_score_reads_five_keys_witness :
  calculate_risk_score (builtins := no_numeric_strings)
    (<["note" := VStr "eyewall"]> storm_reading)
  = calculate_risk_score (builtins := no_numeric_strings) storm_reading
  ∧ calculate_risk_score (builtins := no_numeric_strings)
      (<["CAPE" := VNone]> storm_reading) = None.
Proof.
  split.
  - apply (proj1 (calculate_risk_score_reads_five_keys
                    (builtins := no_numeric_strings) _ storm_reading)).
    intros k Hk. apply lookup_insert_ne. intros <-.
    apply list_elem_of_In in Hk. cbn in Hk. intuition discriminate.
  - apply (proj2 (calculate_risk_score_reads_five_keys
                    (builtins := no_numeric_strings) _ storm_reading)).
    exists "CAPE". split; [ apply list_elem_of_In; cbn; tauto | reflexivity ].
Defined.

Lemma calculate_risk_score_monotone_witness :
  ∃ s s',
    calculate_risk_score (builtins := no_numeric_strings) calm_reading = Some s
    ∧ calculate_risk_score (builtins := no_numeric_strings) storm_reading
      = Some s'
    ∧ s <= s'.
Proof.
  apply (calculate_risk_score_monotone (builtins := no_numeric_strings)
           calm_reading storm_reading
           2000 0.001 0.0 0.0 0.0 4000 0.0015 1.0 3.0 1.0);
    first [ reflexivity | lra ].
Defined.

Lemma should_zoom_thresholds_witness :
  (should_zoom (builtins := no_numeric_strings) storm_reading 0.9 = Some true →
   should_zoom (builtins := no_numeric_strings) storm_reading 0.5 = Some true)
  ∧ should_zoom (builtins := no_numeric_strings) storm_reading 0 = Some true
  ∧ should_zoom (builtins := no_numeric_strings) storm_reading 2 = Some false.
Proof.
  split; [ | split ].
  - apply (should_zoom_thresholds (builtins := no_numeric_strings)
             storm_reading 4000 0.0015 1.0 3.0 1.0 0.9 0.5);
      first [ reflexivity | lra ].
  - apply (should_zoom_thresholds (builtins := no_numeric_strings)
             storm_reading 4000 0.0015 1.0 3.0 1.0 0 0);
      first [ reflexivity | lra ].
  - apply (should_zoom_thresholds (builtins := no_numeric_strings)
             storm_reading 4000 0.0015 1.0 3.0 1.0 2 2);
      first [ reflexivity | lra ].
Defined.


Lemma should_zoom_along_ranking_witness :
  should_zoom (builtins := no_numeric_strings) storm_reading 0.2 = Some true.
Proof.
  apply (should_zoom_along_ranking (builtins := no_numeric_strings)
           sample_grid 4 sample_ranking 0.2 0 1
           (storm_reading, 1.000) (calm_reading, 0.292)).
  - vm_compute. reflexivity.
  - lia.
  - reflexivity.
  - reflexivity.
  - vm_compute. reflexivity.
Defined.




End ZoomMore.

(* ===================================================================== *)
(** ** aethernet_swarm_controller.py: further properties *)
(* ===================================================================== *)

Module SwarmMore.
Import Py PyRandom SwarmController Reference SortFacts SwarmFacts.

Lemma filter_filter_same {A} (f : A → bool) (l : list A) :
  List.filter f (List.filter f l) = List.filter f l.
Proof.
  induction l as [|x l IH]; [ done | ]. cbn.
  destruct (f x) eqn:Hx; [ | done ]. cbn. by rewrite Hx, IH.
Qed.

Lemma filter_all {A} (f : A → bool) (l : list A) :
  Forall (λ x, f x = true) l → List.filter f l = l.
Proof.
  induction 1 as [|x l Hx _ IH]; [ done | ]. cbn. by rewrite Hx, IH.
Qed.

Lemma length_filter_le {A} (f : A → bool) (l : list A) :
  (length (List.filter f l) ≤ length l)%nat.
Proof. induction l as [|x l IH]; cbn; [ done | ]. destruct (f x); cbn; lia. Qed.

(** X10. [reassign_after_failure] is idempotent: run on its own result it
    returns that record again and prints nothing. *)
Theorem reassign_after_failure_idempotent (cluster : Cluster) :
  reassign_after_failure (reassign_after_failure cluster).1
  = ((reassign_after_failure cluster).1, []).
Proof.
  unfold reassign_after_failure. cbn [fst members id status formation].
  rewrite filter_filter_same, Nat.eqb_refl. done.
Qed.

(** X11. A cluster whose [mode] follows the rule and that has no failed
    member comes back from [reassign_after_failure] unchanged, with
    nothing printed; and in general the call never adds a member and never
    promotes: a result in 'mesh' mode means the rule-abiding input was in
    'mesh' mode. *)
Theorem reassign_after_failure_only_demotes (cluster : Cluster) :
  (length (members (reassign_after_failure cluster).1)
   ≤ length (members cluster))%nat
  ∧ (mode_rule cluster →
     (mode (reassign_after_failure cluster).1 = "mesh" →
      mode cluster = "mesh")
     ∧ (Forall (λ d, has_failed_status d = false) (members cluster) →
        reassign_after_failure cluster = (cluster, []))).
Proof.
  split; [ apply length_filter_le | ].
  intros [Hmesh Hscan]. split.
  - cbn [reassign_after_failure fst mode]. intros Hm. apply Hmesh.
    pose proof (length_filter_le not_failed (members cluster)).
    destruct (Nat.leb_spec 4 (length (List.filter not_failed (members cluster))));
      [ lia | done ].
  - intros Hok. unfold reassign_after_failure.
    rewrite filter_all; last first.
    { eapply Forall_impl; [ exact Hok | ].
      intros d Hd. by rewrite not_failed_spec, Hd. }
    rewrite Nat.eqb_refl. cbn [negb]. f_equal.
    destruct cluster as [i m md st fm].
    cbn [members mode id status formation] in *. f_equal.
    destruct (Nat.leb_spec 4 (length m)).
    + symmetry. by apply Hmesh.
    + symmetry. by apply Hscan.
Qed.

Lemma sort_by_sorted_id {A} (k : A → Q) (l : list A) :
  StronglySorted (ascending k) l → sort_by k l = l.
Proof.
  induction 1 as [|x l Hl IH Hx]; [ done | ].
  change (sort_by k (x :: l)) with (insert_by k x (sort_by k l)).
  rewrite IH. destruct l as [|y l]; [ done | ]. cbn.
  apply Forall_cons in Hx as [Hxy _]. unfold ascending in Hxy.
  by rewrite (proj2 (Qltb_ge (k y) (k x)) Hxy).
Qed.

(** X12. Scheduling is idempotent: the rotation plan of a plan is the plan
    itself, and it has as many units as the input. *)
Theorem recommend_rotation_schedule_idempotent (drones res : list pydict) :
  Forall numeric_battery drones →
  recommend_rotation_schedule drones = Some res →
  recommend_rotation_schedule res = Some res
  ∧ length res = length drones.
Proof.
  intros Hnum Hres.
  assert (Hkeys : ∀ l, Forall numeric_battery l →
            numeric_keys (λ d, get d "battery" (VNum 100)) battery_or_100 l).
  { intros l Hl. unfold numeric_keys.
    eapply Forall_impl; [ exact Hl | ]. intros d. apply battery_key. }
  unfold recommend_rotation_schedule in *.
  rewrite (sorted_numeric _ battery_or_100) in Hres by by apply Hkeys.
  injection Hres as <-.
  pose proof (sorted_by_Permutation battery_or_100 false drones) as Hperm.
  split; [ | by apply Permutation_length ].
  rewrite (sorted_numeric _ battery_or_100); last first.
  { apply Hkeys. by rewrite Hperm. }
  f_equal. cbn [sorted_by]. apply sort_by_sorted_id, sort_by_sorted.
Qed.

Section WithRandom.
Context `{rnd : Random}.

Lemma choice_elem {A} (seq : list A) (g : RngState) :
  seq ≠ [] → ∃ x, (choice seq g).1 = Some x ∧ x ∈ seq.
Proof.
  intros Hne. unfold choice. destruct seq as [|y seq]; [ done | ].
  pose proof (randbelow_lt g (length (y :: seq))) as Hlt.
  destruct (randbelow g (length (y :: seq))) as [i g'] eqn:Hr. cbn [fst] in *.
  destruct (lookup_lt_is_Some_2 (y :: seq) i) as [x Hx]; [ cbn in *; lia | ].
  exists x. split; [ done | by eapply list_elem_of_lookup_2 ].
Qed.

(** X13. [assign_role] in a priority zone gives a drone with battery above
    60 the role 'mesh_emitter' without touching the random generator; in a
    zone that is not a priority it never raises, whatever the battery
    field holds; and any role it returns is one of the four. *)
Theorem assign_role_spec (drone zone_info : pydict) (g : RngState) :
  (truthy (get zone_info "zone_priority" (VNum 0)) = true →
   ∀ b, get drone "battery" (VNum 0) = VNum b → 60 < b →
   assign_role drone zone_info g = (Some "mesh_emitter", g))
  ∧ (truthy (get zone_info "zone_priority" (VNum 0)) = false →
     ∃ r, (assign_role drone zone_info g).1 = Some r ∧ r ∈ roles)
  ∧ (∀ r, (assign_role drone zone_info g).1 = Some r → r ∈ roles)
  ∧ ((assign_role drone zone_info g).1 = None →
     truthy (get zone_info "zone_priority" (VNum 0)) = true
     ∧ gt_num (get drone "battery" (VNum 0)) 60 = None).
Proof.
  destruct (choice_elem roles g) as (r' & Hr' & Hin); [ done | ].
  assert (Hmesh : "mesh_emitter" ∈ roles) by (left; done).
  unfold assign_role.
  destruct (truthy (get zone_info "zone_priority" (VNum 0))).
  - split; [ | split; [ done | split ] ].
    + intros _ b -> Hb. cbn [gt_num]. by rewrite (proj2 (Qltb_lt 60 b) Hb).
    + intros r. destruct (gt_num _ _) as [[]|]; cbn [fst].
      * by intros [= <-].
      * rewrite Hr'. by intros [= <-].
      * done.
    + destruct (gt_num _ _) as [[]|]; cbn [fst]; [ done | | done ].
      by rewrite Hr'.
  - split; [ done | split; [ | split ] ].
    + intros _. by exists r'.
    + intros r. rewrite Hr'. by intros [= <-].
    + by rewrite Hr'.
Qed.
End WithRandom.

Lemma apply_heading_bias_twice (drone : pydict) (heading bank aoa : option Q) :
  apply_heading_bias (apply_heading_bias drone heading bank aoa)
    heading bank aoa
  = apply_heading_bias drone heading bank aoa.
Proof.
  apply map_eq. intros k. unfold apply_heading_bias.
  destruct (decide (k = "heading_deg")) as [Hk1|Hk1];
    destruct (decide (k = "bank_deg")) as [Hk2|Hk2];
    destruct (decide (k = "angle_of_attack_deg")) as [Hk3|Hk3];
    destruct heading as [h|], bank as [b|], aoa as [a|];
    by simplify_map_eq.
Qed.

(** X14. [apply_heading_bias] writes the supplied angles under their three
    keys, leaves a key whose argument is [None] as it was, and touches no
    other key; applying the same arguments again changes nothing. *)
Theorem apply_heading_bias_spec (drone : pydict) (heading bank aoa : option Q) :
  let drone' := apply_heading_bias drone heading bank aoa in
  drone' !! "heading_deg"
    = from_option (λ h, Some (VNum h)) (drone !! "heading_deg") heading
  ∧ drone' !! "bank_deg"
    = from_option (λ b, Some (VNum b)) (drone !! "bank_deg") bank
  ∧ drone' !! "angle_of_attack_deg"
    = from_option (λ a, Some (VNum a)) (drone !! "angle_of_attack_deg") aoa
  ∧ (∀ k, k ≠ "heading_deg" → k ≠ "bank_deg" → k ≠ "angle_of_attack_deg" →
       drone' !! k = drone !! k)
  ∧ apply_heading_bias drone' heading bank aoa = drone'.
Proof.
  cbv zeta. split; [ | split; [ | split; [ | split ] ] ];
    [ .. | apply apply_heading_bias_twice ];
    unfold apply_heading_bias;
    destruct heading as [h|], bank as [b|], aoa as [a|]; cbn [from_option];
    intros; by simplify_map_eq.
Qed.

(** *** The theorems above at the sample fleet *)

Lemma reassign_after_failure_only_demotes_witness :
  reassign_after_failure healthy_cluster = (healthy_cluster, [])
  ∧ (mode (reassign_after_failure healthy_cluster).1 = "mesh" →
     mode healthy_cluster = "mesh").
Proof.
  destruct (reassign_after_failure_only_demotes healthy_cluster)
    as [_ Hrule].
  destruct Hrule as [Hmesh Hsame].
  - apply (SwarmFacts.mode_of_length 4).
  - split; [ | exact Hmesh ].
    apply Hsame. repeat (constructor; [ reflexivity | ]). constructor.
Defined.

Lemma recommend_rotation_schedule_idempotent_witness :
  ∃ res, recommend_rotation_schedule fleet = Some res
         ∧ recommend_rotation_schedule res = Some res
         ∧ length res = length fleet.
Proof.
  destruct (recommend_rotation_schedule fleet) as [res|] eqn:Hres;
    [ | by vm_compute in Hres ].
  exists res. split; [ reflexivity | ].
  apply (recommend_rotation_schedule_idempotent fleet res); [ | exact Hres ].
  repeat (constructor; [ exact I | ]). constructor.
Defined.

Lemma assign_role_spec_witness :
  assign_role (rnd := cycling_random) (unit "D1" 65)
    {[ "zone_priority" := VNum 1 ]} 7%nat
  = (Some "mesh_emitter", 7%nat)
  ∧ ∃ r, (assign_role (rnd := cycling_random)
            {[ "battery" := VStr "full" ]} ∅ 7%nat).1 = Some r
         ∧ r ∈ roles.
Proof.
  split.
  - apply (proj1 (assign_role_spec (rnd := cycling_random) (unit "D1" 65)
                    {[ "zone_priority" := VNum 1 ]} 7%nat)) with (b := 65);
      [ reflexivity | reflexivity | lra ].
  - apply (proj1 (proj2 (assign_role_spec (rnd := cycling_random)
                           {[ "battery" := VStr "full" ]} ∅ 7%nat))).
    reflexivity.
Defined.

Lemma apply_heading_bias_spec_witness :
  apply_heading_bias (unit "D1" 65) (Some 90) None (Some 2) !! "id"
  = Some (VStr "D1")
  ∧ apply_heading_bias (unit "D1" 65) (Some 90) None (Some 2) !! "bank_deg"
    = None.
Proof.
  pose proof (apply_heading_bias_spec (unit "D1" 65) (Some 90) None (Some 2))
    as Hspec.
  cbv zeta in Hspec. destruct Hspec as (_ & Hbank & _ & Hother & _).
  split.
  - rewrite (Hother "id"); [ reflexivity | discriminate .. ].
  - rewrite Hbank. reflexivity.
Defined.

End SwarmMore.

(* ===================================================================== *)
(** ** aethernet_ai_feedback_loop.py: further properties *)
(* ===================================================================== *)

Module AiMore.
Import Py AiFeedbackLoop Reference PyFacts SortFacts AiFacts PyMore.

Section WithBuiltins.
Context `{builtins : Builtins}.

Lemma norm_abs_unit (v : pyval) (span x : Q) :
  0 < span → norm_abs v span = Some x → 0 <= x ∧ x <= 1.
Proof.
  intros Hspan Hx. unfold norm_abs in Hx.
  apply bind_Some in Hx as (r & _ & [= <-]). split.
  - apply Q.min_glb; [ | lra ].
    apply Qle_shift_div_l; [ done | ]. pose proof (Qabs_nonneg r). lra.
  - pose proof (Q.le_min_r (Qabs r / span) 1.0). lra.
Qed.


(** X16. [_extract_angle_features] reads only the five angle keys and
    [angle_meta]: records that agree on them get the same features. *)
Theorem extract_angle_features_reads (entry entry' : pydict) :
  (∀ k, k ∈ "angle_meta" :: angle_keys → entry !! k = entry' !! k) →
  _extract_angle_features entry = _extract_angle_features entry'.
Proof.
  intros Hk. unfold _extract_angle_features, get.
  rewrite <- (Hk "angle_meta"), <- (Hk "heading_deg"), <- (Hk "bank_deg"),
    <- (Hk "angle_of_attack_deg"), <- (Hk "formation_yaw_offset_deg"),
    <- (Hk "alignment_mode");
    [ done | apply list_elem_of_In; cbn; tauto .. ].
Qed.

Lemma extract_nested (entry m : pydict) :
  (∀ k, k ∈ angle_keys → entry !! k = None) →
  entry !! "angle_meta" = Some (VDict m) →
  m !! "angle_meta" = None →
  _extract_angle_features entry = _extract_angle_features m.
Proof.
  intros Hk Hm Hnone. unfold _extract_angle_features, get.
  rewrite Hm, Hnone.
  rewrite (Hk "heading_deg"), (Hk "bank_deg"), (Hk "angle_of_attack_deg"),
    (Hk "formation_yaw_offset_deg"), (Hk "alignment_mode")
    by (apply list_elem_of_In; cbn; tauto).
  cbn. unfold get. rewrite !lookup_empty. cbn.
  by destruct (m !! "heading_deg"), (m !! "bank_deg"),
    (m !! "angle_of_attack_deg"), (m !! "formation_yaw_offset_deg"),
    (m !! "alignment_mode").
Qed.

(** X17. An angle given at the top level of a record wins over [angle_meta]:
    with all five angle keys present the block is irrelevant, as long as it
    is a dict.  Conversely a record that carries its angles only inside
    [angle_meta] gets the features of that block read as a record. *)
Theorem extract_angle_features_precedence (entry m : pydict) :
  ((∀ k, k ∈ angle_keys → is_Some (entry !! k)) →
   _extract_angle_features (<["angle_meta" := VDict m]> entry)
   = _extract_angle_features (delete "angle_meta" entry))
  ∧ ((∀ k, k ∈ angle_keys → entry !! k = None) →
     entry !! "angle_meta" = Some (VDict m) →
     m !! "angle_meta" = None →
     _extract_angle_features entry = _extract_angle_features m).
Proof.
  split; [ | apply extract_nested ].
  intros Hk. unfold _extract_angle_features, get.
  rewrite lookup_insert_eq, lookup_delete_eq.
  rewrite !lookup_insert_ne, !lookup_delete_ne by done.
  destruct (Hk "heading_deg") as [v1 ->];
    [ apply list_elem_of_In; cbn; tauto | ].
  destruct (Hk "bank_deg") as [v2 ->];
    [ apply list_elem_of_In; cbn; tauto | ].
  destruct (Hk "angle_of_attack_deg") as [v3 ->];
    [ apply list_elem_of_In; cbn; tauto | ].
  destruct (Hk "formation_yaw_offset_deg") as [v4 ->];
    [ apply list_elem_of_In; cbn; tauto | ].
  destruct (Hk "alignment_mode") as [v5 ->];
    [ apply list_elem_of_In; cbn; tauto | ].
  done.
Qed.

Lemma norm_abs_num (q span : Q) :
  ∃ x, norm_abs (VNum q) span = Some x ∧ x == Qmin (Qabs q / span) 1.0.
Proof.
  unfold norm_abs, py_or. cbn [truthy].
  destruct (Qeq_bool q 0) eqn:Hq; cbn; eexists; (split; [ done | ]).
  - apply Qeq_bool_iff in Hq. by rewrite Hq.
  - reflexivity.
Qed.

(** X18. Angles stored on a drone record by [apply_heading_bias] are the ones
    [_extract_angle_features] then reports, normalised, whatever the
    record or its [angle_meta] held for them before; yaw and alignment
    features are unchanged. *)
Theorem extract_after_apply_heading_bias (drone : pydict) (heading bank aoa : Q)
    (h0 b0 a0 y0 up down cross : Q) :
  _extract_angle_features drone = Some (h0, b0, a0, y0, up, down, cross) →
  ∃ h b a,
    _extract_angle_features
      (SwarmController.apply_heading_bias drone
         (Some heading) (Some bank) (Some aoa))
    = Some (h, b, a, y0, up, down, cross)
    ∧ h == fmod heading 360 / 360
    ∧ b == Qmin (Qabs bank / 30) 1
    ∧ a == Qmin (Qabs aoa / 15) 1.
Proof.
  unfold _extract_angle_features, SwarmController.apply_heading_bias, get.
  intros He. simplify_map_eq.
  apply bind_Some in He as (hd & Hhd & He).
  apply bind_Some in He as (bk & Hbk & He).
  apply bind_Some in He as (ao & Hao & He).
  apply bind_Some in He as (yaw & Hyaw & He).
  apply bind_Some in He as (al_raw & Hal & He).
  apply bind_Some in He as (al & Hlow & He).
  apply bind_Some in He as (hn & Hhn & He).
  apply bind_Some in He as (bn & Hbn & He).
  apply bind_Some in He as (an & Han & He).
  apply bind_Some in He as (yn & Hyn & He).
  injection He as <- <- <- <- <- <- <-.
  apply fmap_Some in Hhd as (mh & -> & _).
  apply fmap_Some in Hbk as (mb & -> & _).
  apply fmap_Some in Hao as (ma & -> & _).
  rewrite Hyaw, Hal. cbn [fmap option_fmap option_map mbind option_bind].
  rewrite Hlow. cbn [mbind option_bind is_not_none float].
  destruct (norm_abs_num bank 30.0) as (b & -> & Hb).
  destruct (norm_abs_num aoa 15.0) as (a & -> & Ha).
  rewrite Hyn. cbn [mbind option_bind].
  eexists _, b, a. split; [ done | ].
  split; [ | split ].
  - assert (360.0 == 360) as -> by lra. reflexivity.
  - rewrite Hb. assert (30.0 == 30) as -> by lra.
    assert (1.0 == 1) as -> by lra. reflexivity.
  - rewrite Ha. assert (15.0 == 15) as -> by lra.
    assert (1.0 == 1) as -> by lra. reflexivity.
Qed.

End WithBuiltins.
Section WithLibraries.
Context `{builtins : Builtins, numpy : Numpy, sklearn : Sklearn}.

(** X19. [preprocess] returns one feature row and one label per record, each
    row with 12 components; an empty dataset gives empty arrays. *)
Theorem preprocess_shape (dataset : list pydict) (X : matrix) (y : list Z) :
  preprocess dataset = Some (X, y) →
  length X = length dataset
  ∧ length y = length dataset
  ∧ Forall (λ row, length row = 12%nat) X.
Proof.
  unfold preprocess. rewrite preprocess_loop. cbn [app].
  intros Hp.
  destruct (mapM raw_row dataset) as [rows|] eqn:Hrows; [ | done ].
  cbn [mbind option_bind] in Hp.
  destruct (mapM (mapM np_float) rows) as [X'|] eqn:HX; [ | done ].
  cbn [mbind option_bind] in Hp.
  destruct (mapM np_int (raw_label <$> dataset)) as [y'|] eqn:Hy; [ | done ].
  injection Hp as <- <-.
  apply length_mapM in Hy. rewrite length_fmap in Hy.
  pose proof (length_mapM _ _ _ Hrows) as Hlen1.
  pose proof (length_mapM _ _ _ HX) as Hlen2.
  split; [ congruence | ]. split; [ done | ].
  apply mapM_Some in Hrows, HX.
  apply Forall_forall. intros row Hrow.
  apply list_elem_of_lookup in Hrow as [i Hi].
  destruct (Forall2_lookup_r _ _ _ _ _ HX Hi) as (raw & Hraw & Hconv).
  destruct (Forall2_lookup_r _ _ _ _ _ Hrows Hraw) as (entry & _ & Hentry).
  apply length_mapM in Hconv. rewrite <- Hconv.
  unfold raw_row in Hentry.
  apply bind_Some in Hentry as (ang & Hang & [= <-]).
  apply fmap_Some in Hang as (t & _ & ->).
  cbn [length app]. by rewrite tuple_list_length.
Qed.

Lemma predict_next_focus_self (current_scan : pydict) (w : world) :
  self (predict_next_focus current_scan w).2 = self w.
Proof.
  unfold predict_next_focus, bind, get_is_trained.
  destruct (is_trained (self w)); cbn [negb].
  - unfold lift, model_predict, ret.
    destruct (_vectorize_scan current_scan) as [features|]; [ | done ].
    destruct (predict (model (self w)) features) as [ps|]; [ | done ].
    by destruct (ps !! 0%nat).
  - unfold print, lift. cbn. by destruct (fallback_rule current_scan).
Qed.

Lemma predict_next_focus_trained_out (current_scan : pydict) (w : world) :
  is_trained (self w) = true →
  out (predict_next_focus current_scan w).2 = out w.
Proof.
  intros Ht. unfold predict_next_focus, bind, get_is_trained. rewrite Ht.
  cbn [negb]. unfold lift, model_predict, ret.
  destruct (_vectorize_scan current_scan) as [features|]; [ | done ].
  destruct (predict (model (self w)) features) as [ps|]; [ | done ].
  by destruct (ps !! 0%nat).
Qed.

(** X20. [predict_next_focus] never changes the instance or the random
    generator, and prints at most the fallback notice: exactly that when
    the model is untrained, nothing when it is trained, whether or not the
    call raises. *)
Theorem predict_next_focus_frame (current_scan : pydict) (w : world) :
  self (predict_next_focus current_scan w).2 = self w
  ∧ rng (predict_next_focus current_scan w).2 = rng w
  ∧ out (predict_next_focus current_scan w).2
    = out w ++ (if is_trained (self w) then [] else [NoticeFallback]).
Proof.
  unfold predict_next_focus, bind, get_is_trained.
  destruct (is_trained (self w)); cbn [negb].
  - unfold lift, model_predict, ret.
    destruct (_vectorize_scan current_scan) as [features|];
      [ | by rewrite app_nil_r ].
    destruct (predict (model (self w)) features) as [ps|];
      [ | by rewrite app_nil_r ].
    destruct (ps !! 0%nat); by rewrite app_nil_r.
  - unfold print, lift. cbn. by destruct (fallback_rule current_scan).
Qed.

(** X21. The untrained rule short-circuits: with a numeric CAPE of 1500 or
    less the answer is [False] whatever the vorticity field holds, even a
    value that cannot be compared; with a CAPE that is not a number the
    call raises, after the notice is printed. *)
Theorem predict_next_focus_short_circuit (current_scan : pydict) (w : world) :
  is_trained (self w) = false →
  (∀ cape, get current_scan "CAPE" (VNum 0) = VNum cape → cape <= 1500 →
     (predict_next_focus current_scan w).1 = Some false)
  ∧ (gt_num (get current_scan "CAPE" (VNum 0)) 1500 = None →
     (predict_next_focus current_scan w).1 = None
     ∧ out (predict_next_focus current_scan w).2
       = out w ++ [NoticeFallback]).
Proof.
  intros Hu. unfold predict_next_focus, bind, get_is_trained. rewrite Hu.
  unfold print, lift, fallback_rule. cbn [negb fst snd out]. split.
  - intros cape -> Hle. cbn. by rewrite (proj2 (Qltb_ge 1500 cape) Hle).
  - by intros ->.
Qed.

(** X22. No method resets the flag: once [is_trained] is true it stays true
    through [train], [predict_next_focus] and [retrain_on_outcome], also
    when they raise. *)
Theorem is_trained_never_reset (current_scan : pydict)
    (ds : list pydict) (success : bool) (w : world) :
  is_trained (self w) = true →
  is_trained (self (train ds w).2) = true
  ∧ is_trained (self (predict_next_focus current_scan w).2) = true
  ∧ is_trained (self (retrain_on_outcome ds success w).2) = true.
Proof.
  intros Ht.
  assert (Htrain : ∀ w', is_trained (self w') = true →
            is_trained (self (train ds w').2) = true).
  { intros w' Hw'. unfold train, bind, lift.
    destruct (preprocess ds) as [[X y]|]; cbv beta iota; [ | done ].
    destruct (distinct y <? 2)%nat; [ done | ].
    unfold split.
    destruct (train_test_split (rng w') X y) as [[[[[Xt Xv] yt] yv]|] g];
      cbv beta iota; [ | done ].
    unfold model_fit. cbn [self model is_trained rng out].
    destruct (fit (model (self w')) Xt yt) as [[[]|] m]; cbv beta iota;
      [ | done ].
    unfold model_predict. cbn [self model is_trained rng out].
    destruct (predict m Xv) as [pred|]; cbv beta iota; [ | done ].
    by destruct (accuracy_score yv pred) as [acc|]. }
  split; [ by apply Htrain | ]. split.
  - by rewrite predict_next_focus_self.
  - destruct success; [ done | ]. by apply Htrain.
Qed.

(** X23. [train] is not atomic.  When the split succeeds and [fit] returns
    but the holdout prediction or the accuracy raises, the estimator has
    already been refitted in place while [is_trained] keeps its old value
    and nothing is printed; when everything returns, the instance holds
    the estimator fitted on the training part only, the flag is set, one
    line with the accuracy is printed, and the next [predict_next_focus]
    prints no fallback notice. *)
Theorem train_effects (dataset : list pydict) (w : world) (X Xt Xv : matrix)
    (y yt yv : list Z) (g : Rng) (m : Model) :
  preprocess dataset = Some (X, y) →
  (2 ≤ distinct y)%nat →
  train_test_split (rng w) X y = (Some (Xt, Xv, yt, yv), g) →
  fit (model (self w)) Xt yt = (Some (), m) →
  (predict m Xv = None
   ∨ (∃ pred, predict m Xv = Some pred ∧ accuracy_score yv pred = None) →
   train dataset w
   = (None, {| self := {| model := m; is_trained := is_trained (self w) |};
               rng := g; out := out w |}))
  ∧ (∀ pred acc, predict m Xv = Some pred →
       accuracy_score yv pred = Some acc →
       train dataset w
       = (Some (), {| self := {| model := m; is_trained := true |};
                      rng := g; out := out w ++ [TrainingComplete acc] |})
       ∧ ∀ scan, out (predict_next_focus scan (train dataset w).2).2
                 = out w ++ [TrainingComplete acc]).
Proof.
  intros Hpre Hy Hsplit Hfit.
  assert (Hlt : (distinct y <? 2)%nat = false) by (apply Nat.ltb_ge; lia).
  split.
  - intros Hfail. unfold train, bind, lift. rewrite Hpre. cbv beta iota.
    rewrite Hlt. unfold split. rewrite Hsplit. cbv beta iota.
    unfold model_fit. cbn [self model is_trained rng out].
    rewrite Hfit. cbv beta iota.
    unfold model_predict. cbn [self model].
    destruct Hfail as [-> | (pred & -> & Ha)]; [ done | ].
    cbv beta iota. by rewrite Ha.
  - intros pred acc Hp Ha.
    assert (Ht : train dataset w
                 = (Some (), {| self := {| model := m; is_trained := true |};
                                rng := g;
                                out := out w ++ [TrainingComplete acc] |})).
    { unfold train, bind, lift. rewrite Hpre. cbv beta iota. rewrite Hlt.
      unfold split. rewrite Hsplit. cbv beta iota.
      unfold model_fit. cbn [self model is_trained rng out].
    rewrite Hfit. cbv beta iota.
      unfold model_predict. cbn [self model]. rewrite Hp. cbv beta iota.
      rewrite Ha. done. }
    split; [ done | ]. intros scan. rewrite Ht. cbn [snd].
    by rewrite predict_next_focus_trained_out.
Qed.

End WithLibraries.

(** *** The theorems above at the sample records *)


Lemma extract_angle_features_reads_witness :
  _extract_angle_features (builtins := no_numeric_strings)
    (<["CAPE" := VNum 0]> angled_entry)
  = _extract_angle_features (builtins := no_numeric_strings) angled_entry.
Proof.
  apply (extract_angle_features_reads (builtins := no_numeric_strings)).
  intros k Hk. apply lookup_insert_ne. intros <-.
  apply list_elem_of_In in Hk. cbn in Hk. intuition discriminate.
Defined.

Lemma extract_angle_features_precedence_witness :
  _extract_angle_features (builtins := no_numeric_strings)
    (<["angle_meta" := VDict angled_block]> steered_entry)
  = _extract_angle_features (builtins := no_numeric_strings)
      (delete "angle_meta" steered_entry)
  ∧ _extract_angle_features (builtins := no_numeric_strings)
      (delete "heading_deg" angled_entry)
    = _extract_angle_features (builtins := no_numeric_strings) angled_block.
Proof.
  split.
  - apply (proj1 (extract_angle_features_precedence
                    (builtins := no_numeric_strings)
                    steered_entry angled_block)).
    intros k Hk. apply list_elem_of_In in Hk. cbn in Hk.
    repeat (destruct Hk as [<- | Hk]; [ vm_compute; eauto | ]).
    destruct Hk.
  - apply (proj2 (extract_angle_features_precedence
                    (builtins := no_numeric_strings)
                    (delete "heading_deg" angled_entry) angled_block)).
    + intros k Hk. apply list_elem_of_In in Hk. cbn in Hk.
      repeat (destruct Hk as [<- | Hk]; [ reflexivity | ]).
      destruct Hk.
    + reflexivity.
    + reflexivity.
Defined.

Lemma extract_after_apply_heading_bias_witness :
  ∃ h b a y up down cross,
    _extract_angle_features (builtins := no_numeric_strings)
      (SwarmController.apply_heading_bias angled_entry
         (Some 90) (Some 15) (Some 3))
    = Some (h, b, a, y, up, down, cross)
    ∧ h == fmod 90 360 / 360
    ∧ b == Qmin (Qabs 15 / 30) 1
    ∧ a == Qmin (Qabs 3 / 15) 1.
Proof.
  destruct (_extract_angle_features (builtins := no_numeric_strings)
              angled_entry) as [[[[[[[h0 b0] a0] y0] up] down] cross]|] eqn:He;
    [ | by vm_compute in He ].
  destruct (extract_after_apply_heading_bias (builtins := no_numeric_strings)
              angled_entry 90 15 3 h0 b0 a0 y0 up down cross He)
    as (h & b & a & Heq & Hh & Hb & Ha).
  by exists h, b, a, y0, up, down, cross.
Defined.

Lemma preprocess_shape_witness :
  ∃ X y,
    preprocess (builtins := no_numeric_strings) (numpy := numbers_only)
      one_sided_dataset = Some (X, y)
    ∧ length X = length one_sided_dataset
    ∧ length y = length one_sided_dataset
    ∧ Forall (λ row, length row = 12%nat) X.
Proof.
  destruct (preprocess (builtins := no_numeric_strings)
              (numpy := numbers_only) one_sided_dataset)
    as [[X y]|] eqn:Hp; [ | by vm_compute in Hp ].
  exists X, y. split; [ reflexivity | ].
  apply (preprocess_shape (builtins := no_numeric_strings)
           (numpy := numbers_only) one_sided_dataset X y Hp).
Defined.

Lemma predict_next_focus_short_circuit_witness :
  (predict_next_focus (builtins := no_numeric_strings)
     (numpy := numbers_only)
     (<["vorticity" := VStr "n/a"]> odd_reading) fresh_world).1 = Some false
  ∧ (predict_next_focus (builtins := no_numeric_strings)
       (numpy := numbers_only) {[ "CAPE" := VStr "high" ]} fresh_world).1
    = None.
Proof.
  split.
  - apply (proj1 (predict_next_focus_short_circuit
                    (builtins := no_numeric_strings) (numpy := numbers_only)
                    (<["vorticity" := VStr "n/a"]> odd_reading) fresh_world
                    eq_refl)) with (cape := -2000);
      [ reflexivity | lra ].
  - apply (proj2 (predict_next_focus_short_circuit
                    (builtins := no_numeric_strings) (numpy := numbers_only)
                    {[ "CAPE" := VStr "high" ]} fresh_world eq_refl)).
    reflexivity.
Defined.

Lemma is_trained_never_reset_witness :
  is_trained (self (train (builtins := no_numeric_strings)
                      (numpy := numbers_only) one_sided_dataset
                      trained_world).2) = true
  ∧ is_trained (self (predict_next_focus (builtins := no_numeric_strings)
                        (numpy := numbers_only) calm_reading
                        trained_world).2) = true
  ∧ is_trained (self (retrain_on_outcome (builtins := no_numeric_strings)
                        (numpy := numbers_only) one_sided_dataset false
                        trained_world).2) = true.
Proof.
  apply (is_trained_never_reset (builtins := no_numeric_strings)
           (numpy := numbers_only) calm_reading one_sided_dataset false
           trained_world).
  reflexivity.
Defined.

Lemma train_effects_witness :
  (∃ X y, preprocess (builtins := no_numeric_strings) (numpy := numbers_only)
            two_class_dataset = Some (X, y)
          ∧ train (builtins := no_numeric_strings) (numpy := numbers_only)
              two_class_dataset fresh_world
            = (Some (),
               @Build_world constant_classifier
                 (@Build_AetherNetAI constant_classifier (Some 0%Z) true)
                 tt [TrainingComplete 1]))
  ∧ (train (builtins := no_numeric_strings) (numpy := numbers_only)
       two_class_dataset brittle_world).1 = None
  ∧ model (self (train (builtins := no_numeric_strings)
                   (numpy := numbers_only) two_class_dataset
                   brittle_world).2) = Some 0%Z
  ∧ is_trained (self (train (builtins := no_numeric_strings)
                        (numpy := numbers_only) two_class_dataset
                        brittle_world).2) = false.
Proof.
  assert (Hp : ∃ X, preprocess (builtins := no_numeric_strings)
                      (numpy := numbers_only) two_class_dataset
                    = Some (X, [1; 0; 1]%Z)).
  { eexists. vm_compute. reflexivity. }
  destruct Hp as [X Hp]. split.
  - exists X, [1; 0; 1]%Z. split; [ exact Hp | ].
    apply (proj2 (train_effects (builtins := no_numeric_strings)
                    (numpy := numbers_only) (sklearn := constant_classifier)
                    two_class_dataset fresh_world X (drop 1 X) (take 1 X)
                    [1; 0; 1]%Z [0; 1]%Z [1]%Z tt (Some 0%Z) Hp
                    ltac:(vm_compute; lia) eq_refl eq_refl)
             ((λ _, 0%Z) <$> take 1 X) 1 eq_refl eq_refl).
  - rewrite (proj1 (train_effects (builtins := no_numeric_strings)
                      (numpy := numbers_only) (sklearn := brittle_classifier)
                      two_class_dataset brittle_world X (drop 1 X) (take 1 X)
                      [1; 0; 1]%Z [0; 1]%Z [1]%Z tt (Some 0%Z) Hp
                      ltac:(vm_compute; lia) eq_refl eq_refl)
               (or_introl eq_refl)).
    repeat split.
Defined.

End AiMore.

(* ===================================================================== *)
(** ** aethernet_network_sync.py: properties *)
(* ===================================================================== *)

Module SyncFacts.
Import Py PyRandom NetworkSync Reference PyFacts SortFacts PyMore.

Section WithEnvironment.
Context `{clk : Clock, rnd : Random, hsh : Hashing}.

Lemma angle_meta_of_lookup (h b a y : pyval) (k : string) :
  angle_meta_of h b a y !! k
  = if String.eqb k "heading_deg" then (if is_not_none h then Some h else None)
    else if String.eqb k "bank_deg" then (if is_not_none b then Some b else None)
    else if String.eqb k "angle_of_attack_deg"
         then (if is_not_none a then Some a else None)
    else if String.eqb k "formation_yaw_offset_deg"
         then (if is_not_none y then Some y else None)
    else None.
Proof.
  unfold angle_meta_of.
  destruct (String.eqb_spec k "heading_deg") as [-> | H1];
  [ | destruct (String.eqb_spec k "bank_deg") as [-> | H2];
    [ | destruct (String.eqb_spec k "angle_of_attack_deg") as [-> | H3];
      [ | destruct (String.eqb_spec k "formation_yaw_offset_deg") as [-> | H4] ] ] ];
    cbn [List.filter snd];
    destruct (is_not_none h), (is_not_none b), (is_not_none a), (is_not_none y);
    cbn [list_to_map foldr uncurry curry fst snd]; by simplify_map_eq.
Qed.

Lemma angle_meta_of_empty (h b a y : pyval) :
  truthy (VDict (angle_meta_of h b a y))
  = is_not_none h || is_not_none b || is_not_none a || is_not_none y.
Proof.
  unfold angle_meta_of. cbn [List.filter snd truthy].
  destruct (is_not_none h), (is_not_none b), (is_not_none a), (is_not_none y);
    cbn [list_to_map foldr uncurry curry fst snd orb];
    rewrite ?map_size_insert, ?lookup_insert_ne, ?lookup_empty,
      ?map_size_empty by done; done.
Qed.

(** The world after one broadcast of [payload] without angles. *)
Lemma broadcast_plain (drone_id : pyval) (payload : gmap string payload_value)
    (w : world) :
  broadcast_to_open_cloud drone_id payload VNone VNone VNone VNone w
  = let p := {| timestamp := (utcnow_isoformat (clock w)).1;
                 NetworkSync.drone_id := drone_id;
                 NetworkSync.payload := payload;
                 license := "CC0"; simulation := true |} in
    (p, {| clock := (utcnow_isoformat (clock w)).2; rng := rng w;
           out := out w ++ [OpenCloud p; ZenodoBegin; ZenodoData p;
                            ZenodoDone] |}).
Proof.
  unfold broadcast_to_open_cloud.
  destruct (utcnow_isoformat (clock w)) as [now c]. cbn.
  unfold upload_to_open_repo, simulate_upload_to_zenodo, print. cbn.
  by rewrite <- !app_assoc.
Qed.

(** X24. A broadcast keeps every payload key except [angle_meta]; it attaches
    under [angle_meta] exactly the angle arguments that are not [None] (a
    zero angle is kept), replacing a block the payload already had, and
    attaches nothing when all four are [None].  The packet is printed once
    and uploaded once, to Zenodo; the random generator is not used. *)
Theorem broadcast_to_open_cloud_spec (drone_id : pyval)
    (payload : gmap string payload_value) (h b a y : pyval) (w : world) :
  let packet := (broadcast_to_open_cloud drone_id payload h b a y w).1 in
  let w' := (broadcast_to_open_cloud drone_id payload h b a y w).2 in
  (∀ k, k ≠ "angle_meta" → NetworkSync.payload packet !! k = payload !! k)
  ∧ (h = VNone → b = VNone → a = VNone → y = VNone →
     NetworkSync.payload packet = payload)
  ∧ (h ≠ VNone ∨ b ≠ VNone ∨ a ≠ VNone ∨ y ≠ VNone →
     ∃ m, NetworkSync.payload packet !! "angle_meta" = Some (Plain (VDict m))
          ∧ m !! "heading_deg" = (if is_not_none h then Some h else None)
          ∧ m !! "bank_deg" = (if is_not_none b then Some b else None)
          ∧ m !! "angle_of_attack_deg"
            = (if is_not_none a then Some a else None)
          ∧ m !! "formation_yaw_offset_deg"
            = (if is_not_none y then Some y else None)
          ∧ ∀ k, is_Some (m !! k) →
              k ∈ ["heading_deg"; "bank_deg"; "angle_of_attack_deg";
                   "formation_yaw_offset_deg"])
  ∧ NetworkSync.drone_id packet = drone_id
  ∧ license packet = "CC0" ∧ simulation packet = true
  ∧ timestamp packet = (utcnow_isoformat (clock w)).1
  ∧ out w' = out w ++ [OpenCloud packet; ZenodoBegin; ZenodoData packet;
                       ZenodoDone]
  ∧ rng w' = rng w.
Proof.
  cbv zeta. unfold broadcast_to_open_cloud.
  destruct (utcnow_isoformat (clock w)) as [now c] eqn:Hnow.
  cbn [fst snd NetworkSync.payload NetworkSync.drone_id license simulation
       timestamp].
  rewrite angle_meta_of_empty.
  split; [ | split; [ | split ] ].
  - intros k Hk. destruct (_ || _); [ by rewrite lookup_insert_ne | done ].
  - by intros -> -> -> ->.
  - intros Hsome.
    assert (Hor : is_not_none h || is_not_none b || is_not_none a
                  || is_not_none y = true).
    { destruct Hsome as [Hn | [Hn | [Hn | Hn]]];
        destruct h, b, a, y; try done; by rewrite ?orb_true_r. }
    rewrite Hor. eexists. split; [ apply lookup_insert_eq | ].
    rewrite !angle_meta_of_lookup. cbn [String.eqb Ascii.eqb Bool.eqb].
    repeat split.
    intros k [v Hv]. rewrite angle_meta_of_lookup in Hv.
    assert (Hin : ∀ (x : string) l, In x l → x ∈ l)
      by (intros x l; apply list_elem_of_In).
    destruct (String.eqb_spec k "heading_deg") as [-> | _];
      [ apply Hin; cbn; tauto | ].
    destruct (String.eqb_spec k "bank_deg") as [-> | _];
      [ apply Hin; cbn; tauto | ].
    destruct (String.eqb_spec k "angle_of_attack_deg") as [-> | _];
      [ apply Hin; cbn; tauto | ].
    destruct (String.eqb_spec k "formation_yaw_offset_deg") as [-> | _];
      [ apply Hin; cbn; tauto | done ].
  - repeat split.
    unfold upload_to_open_repo, simulate_upload_to_zenodo, print.
    cbn. by rewrite <- !app_assoc.
Qed.

(** X25. Angles attached by a broadcast are the ones
    [_extract_angle_features] reads back from the payload: for a record
    without top-level angle keys that carries the broadcast block, the
    heading, bank, angle-of-attack and yaw features are the normalised
    arguments, and the alignment slots are all zero. *)
Theorem extract_after_broadcast `{builtins : Builtins} (record : pydict)
    (heading bank aoa yaw : Q) :
  (∀ k, k ∈ angle_keys → record !! k = None) →
  ∃ h b a y,
    AiFeedbackLoop._extract_angle_features
      (<["angle_meta" :=
           VDict (angle_meta_of (VNum heading) (VNum bank) (VNum aoa)
                    (VNum yaw))]> record)
    = Some (h, b, a, y, 0.0, 0.0, 0.0)
    ∧ h == fmod heading 360 / 360
    ∧ b == Qmin (Qabs bank / 30) 1
    ∧ a == Qmin (Qabs aoa / 15) 1
    ∧ y == Qmin (Qabs yaw / 180) 1.
Proof.
  intros Hk.
  rewrite (AiMore.extract_nested _
             (angle_meta_of (VNum heading) (VNum bank) (VNum aoa) (VNum yaw)));
    [ | intros k Hin; rewrite lookup_insert_ne; [ by apply Hk | ];
        intros <-; apply list_elem_of_In in Hin; cbn in Hin;
        intuition discriminate
      | apply lookup_insert_eq
      | by rewrite angle_meta_of_lookup ].
  unfold AiFeedbackLoop._extract_angle_features, get.
  rewrite !angle_meta_of_lookup.
  cbn [String.eqb Ascii.eqb Bool.eqb is_not_none default from_option id
       attr_get fmap option_fmap option_map mbind option_bind].
  unfold get. rewrite !lookup_empty.
  cbn [default from_option id py_or truthy str_lower float String.eqb
       mbind option_bind is_not_none].
  destruct (AiMore.norm_abs_num bank 30.0) as (b & -> & Hb).
  destruct (AiMore.norm_abs_num aoa 15.0) as (a & -> & Ha).
  destruct (AiMore.norm_abs_num yaw 180.0) as (y & -> & Hy).
  cbn [mbind option_bind].
  eexists _, b, a, y. split; [ done | ].
  split; [ | split; [ | split ] ].
  - assert (360.0 == 360) as -> by lra. reflexivity.
  - rewrite Hb. assert (30.0 == 30) as -> by lra.
    assert (1.0 == 1) as -> by lra. reflexivity.
  - rewrite Ha. assert (15.0 == 15) as -> by lra.
    assert (1.0 == 1) as -> by lra. reflexivity.
  - rewrite Hy. assert (180.0 == 180) as -> by lra.
    assert (1.0 == 1) as -> by lra. reflexivity.
Qed.

Lemma peer_lines (drone_id : pyval) (peers : list pyval) (e : Z) (w : world) :
  foldl (λ w peer, print [PeerLine drone_id peer e] w) w peers
  = {| clock := clock w; rng := rng w;
       out := out w ++ ((λ peer, PeerLine drone_id peer e) <$> peers) |}.
Proof.
  revert w. induction peers as [|peer peers IH]; intros w.
  - cbn. rewrite app_nil_r. by destruct w.
  - cbn [foldl]. rewrite IH. unfold print. cbn. by rewrite <- app_assoc.
Qed.

(** X26. [peer_to_peer_sync] prints one line per peer, in the order of the
    peer list, all carrying one and the same hash, which lies in
    [0, 100000); it prints nothing for an empty peer list; clock and
    random generator are untouched; and an [angle_meta] that is [None] or
    an empty dict changes nothing compared with leaving it out. *)
Theorem peer_to_peer_sync_spec (drone_id : pyval) (peer_list : list pyval)
    (data : pydict) (angle_meta : pyval) (w : world) :
  (∃ e, (0 ≤ e < 100000)%Z
        ∧ peer_to_peer_sync drone_id peer_list data angle_meta w
          = {| clock := clock w; rng := rng w;
               out := out w ++ ((λ peer, PeerLine drone_id peer e)
                                  <$> peer_list) |})
  ∧ (truthy angle_meta = false →
     peer_to_peer_sync drone_id peer_list data angle_meta w
     = peer_to_peer_sync drone_id peer_list data VNone w).
Proof.
  unfold peer_to_peer_sync. split.
  - eexists. split; [ | apply peer_lines ].
    apply Z.mod_pos_bound. lia.
  - by intros ->.
Qed.

End WithEnvironment.
(** *** The theorems above on a scripted clock *)

Lemma broadcast_to_open_cloud_spec_witness :
  NetworkSync.payload
    (broadcast_to_open_cloud (VStr "D1") {[ "event" := Plain (VStr "ping") ]}
       VNone VNone VNone VNone quiet_world).1
  = {[ "event" := Plain (VStr "ping") ]}
  ∧ ∃ m, NetworkSync.payload
           (broadcast_to_open_cloud (VStr "D1")
              {[ "event" := Plain (VStr "ping") ]}
              (VNum 0) VNone VNone VNone quiet_world).1 !! "angle_meta"
         = Some (Plain (VDict m))
         ∧ m !! "heading_deg" = Some (VNum 0)
         ∧ m !! "bank_deg" = None.
Proof.
  split.
  - pose proof (broadcast_to_open_cloud_spec (VStr "D1")
                  {[ "event" := Plain (VStr "ping") ]}
                  VNone VNone VNone VNone quiet_world) as Hspec.
    cbv zeta in Hspec. destruct Hspec as (_ & Hnone & _).
    apply Hnone; reflexivity.
  - pose proof (broadcast_to_open_cloud_spec (VStr "D1")
                  {[ "event" := Plain (VStr "ping") ]}
                  (VNum 0) VNone VNone VNone quiet_world) as Hspec.
    cbv zeta in Hspec. destruct Hspec as (_ & _ & Hsome & _).
    destruct Hsome as (m & Hm & Hh & Hb & _); [ left; discriminate | ].
    exists m. split; [ exact Hm | ]. split; [ exact Hh | exact Hb ].
Defined.

Lemma extract_after_broadcast_witness :
  ∃ h b a y,
    AiFeedbackLoop._extract_angle_features (builtins := no_numeric_strings)
      (<["angle_meta" :=
           VDict (angle_meta_of (VNum 370) (VNum (-45)) (VNum 3) (VNum 200))]>
         storm_reading)
    = Some (h, b, a, y, 0.0, 0.0, 0.0)
    ∧ h == fmod 370 360 / 360
    ∧ b == Qmin (Qabs (-45) / 30) 1
    ∧ a == Qmin (Qabs 3 / 15) 1
    ∧ y == Qmin (Qabs 200 / 180) 1.
Proof.
  apply (extract_after_broadcast (builtins := no_numeric_strings)
           storm_reading 370 (-45) 3 200).
  intros k Hk. apply list_elem_of_In in Hk. cbn in Hk.
  repeat (destruct Hk as [<- | Hk]; [ reflexivity | ]).
  destruct Hk.
Defined.

Lemma peer_to_peer_sync_spec_witness :
  peer_to_peer_sync (hsh := key_count_hash) (VStr "D1")
    [VStr "D2"; VStr "D3"] storm_reading (VDict ∅) quiet_world
  = peer_to_peer_sync (hsh := key_count_hash) (VStr "D1")
      [VStr "D2"; VStr "D3"] storm_reading VNone quiet_world.
Proof.
  apply (proj2 (peer_to_peer_sync_spec (hsh := key_count_hash) (VStr "D1")
                  [VStr "D2"; VStr "D3"] storm_reading (VDict ∅)
                  quiet_world)).
  reflexivity.
Defined.

End SyncFacts.

(* ===================================================================== *)
(** ** aethernet_base_station.py: properties *)
(* ===================================================================== *)

Module BaseFacts.
Import Py PyRandom NetworkSync BaseStation Reference PyFacts SortFacts PyMore.

Lemma insert_by_fmap {A B} (k : B → Q) (f : A → B) (x : A) (l : list A) :
  f <$> insert_by (λ a, k (f a)) x l = insert_by k (f x) (f <$> l).
Proof.
  induction l as [|y l IH]; [ done | ]. cbn.
  destruct (Qltb (k (f y)) (k (f x))); [ | done ]. cbn. by rewrite IH.
Qed.

Lemma sort_by_fmap {A B} (k : B → Q) (f : A → B) (l : list A) :
  f <$> sort_by (λ a, k (f a)) l = sort_by k (f <$> l).
Proof.
  induction l as [|x l IH]; [ done | ].
  change (sort_by (λ a, k (f a)) (x :: l))
    with (insert_by (λ a, k (f a)) x (sort_by (λ a, k (f a)) l)).
  rewrite insert_by_fmap, IH. done.
Qed.

Lemma insert_sorted_Permutation {A} (key : A → pyval) (x : A) (l s : list A) :
  insert_sorted key x l = Some s → s ≡ₚ x :: l.
Proof.
  revert s. induction l as [|y l IH]; intros s Hs.
  - by injection Hs as <-.
  - cbn in Hs. apply bind_Some in Hs as (b & _ & Hs). destruct b.
    + apply fmap_Some in Hs as (t & Ht & ->).
      rewrite (IH t Ht). apply Permutation_swap.
    + by injection Hs as <-.
Qed.

Lemma sorted_Permutation {A} (key : A → pyval) (reverse : bool) (l s : list A) :
  sorted key reverse l = Some s → s ≡ₚ l.
Proof.
  assert (Hsort : ∀ l s, stable_sort key l = Some s → s ≡ₚ l).
  { clear. induction l as [|x l IH]; intros s Hs.
    - by injection Hs as <-.
    - cbn in Hs. apply bind_Some in Hs as (s' & Hs' & Hins).
      apply insert_sorted_Permutation in Hins. by rewrite Hins, (IH s'). }
  unfold sorted. destruct reverse; [ | apply Hsort ].
  intros Hs. apply fmap_Some in Hs as (t & Ht & ->).
  by rewrite <- Permutation_rev, (Hsort _ _ Ht), <- Permutation_rev.
Qed.

Section WithEnvironment.
Context `{clk : Clock, rnd : Random}.

(** X27. [assign_backup_unit] takes the last entry of the standby list and
    leaves the others in place; with an empty list it assigns [None] and
    the list stays empty.  Either way it broadcasts one packet naming the
    cluster and the unit assigned. *)
Theorem assign_backup_unit_spec (cluster_id : pyval) (standby : list pyval)
    (w : world) :
  let '(assigned, standby', w') := assign_backup_unit cluster_id standby w in
  (standby = [] → assigned = VNone ∧ standby' = [])
  ∧ (∀ l u, standby = l ++ [u] → assigned = u ∧ standby' = l)
  ∧ ∃ p, out w' = out w ++ [OpenCloud p; ZenodoBegin; ZenodoData p; ZenodoDone]
         ∧ NetworkSync.payload p !! "assigned_unit" = Some (Plain assigned)
         ∧ NetworkSync.payload p !! "cluster_id" = Some (Plain cluster_id)
         ∧ NetworkSync.payload p !! "event"
           = Some (Plain (VStr "assign_backup_unit"))
         ∧ NetworkSync.drone_id p = VStr "BASE".
Proof.
  unfold assign_backup_unit.
  destruct (last standby) as [u|] eqn:Hlast.
  - rewrite SyncFacts.broadcast_plain. cbv zeta.
    split; [ by intros -> | ]. split.
    + intros l u' ->. rewrite last_snoc in Hlast. injection Hlast as ->.
      by rewrite removelast_last.
    + eexists. split; [ done | ]. cbn. by simplify_map_eq.
  - rewrite SyncFacts.broadcast_plain. cbv zeta.
    apply last_None in Hlast as ->.
    split; [ done | ]. split.
    + intros l u Hl. by destruct l.
    + eexists. split; [ done | ]. cbn. by simplify_map_eq.
Qed.

(** X28. On a fleet whose units all have a numeric battery and an id, the
    base station's [rotation_schedule] returns the order that the swarm
    controller's [recommend_rotation_schedule] returns and broadcasts the
    ids in that order; a unit without battery or without id makes it raise
    before anything is printed, where the controller's version would have
    counted a missing battery as 100. *)
Theorem rotation_schedule_spec (fleet : list pydict) (w : world) :
  (Forall (λ d, ∃ q, d !! "battery" = Some (VNum q)) fleet →
   Forall (λ d, is_Some (d !! "id")) fleet →
   ∃ plan p,
     rotation_schedule fleet w
     = (Some plan, {| clock := (utcnow_isoformat (clock w)).2; rng := rng w;
                      out := out w ++ [OpenCloud p; ZenodoBegin; ZenodoData p;
                                       ZenodoDone] |})
     ∧ SwarmController.recommend_rotation_schedule fleet = Some plan
     ∧ ∃ ids, NetworkSync.payload p !! "rotation_order" = Some (Listing ids)
              ∧ Forall2 (λ d i, d !! "id" = Some i) plan ids)
  ∧ (Exists (λ d, d !! "battery" = None ∨ d !! "id" = None) fleet →
     rotation_schedule fleet w = (None, w)).
Proof.
  split.
  - intros Hbat Hid.
    set (keyed := (λ d, (VNum (battery_or_100 d), d)) <$> fleet).
    assert (Hkeyed : mapM (λ d : pydict, k ← d !! "battery"; Some (k, d)) fleet
                     = Some keyed).
    { apply mapM_Some. unfold keyed. apply Forall2_fmap_r.
      apply Forall_Forall2_diag. eapply Forall_impl; [ exact Hbat | ].
      intros d [q Hq]. unfold compose, battery_or_100. by rewrite Hq. }
    assert (Hsorted : sorted (λ kd : pyval * pydict, kd.1) false keyed
                      = Some (sort_by (λ kd, battery_or_100 kd.2) keyed)).
    { apply (sorted_numeric _ (λ kd, battery_or_100 kd.2) false).
      unfold numeric_keys, keyed. by apply Forall_fmap, Forall_true. }
    assert (Hplan : snd <$> sort_by (λ kd : pyval * pydict,
                                      battery_or_100 kd.2) keyed
                    = sort_by battery_or_100 fleet).
    { rewrite (sort_by_fmap battery_or_100 snd). f_equal.
      unfold keyed. rewrite <- list_fmap_compose. apply list_fmap_id. }
    assert (Hids : is_Some (mapM (λ d : pydict, d !! "id")
                              (sort_by battery_or_100 fleet))).
    { apply mapM_is_Some. by rewrite sort_by_Permutation. }
    destruct Hids as [ids Hids].
    unfold rotation_schedule. rewrite Hkeyed. cbn [mbind option_bind].
    rewrite Hsorted. cbn [mbind option_bind]. rewrite Hplan, Hids.
    cbn [mbind option_bind]. rewrite SyncFacts.broadcast_plain. cbv zeta.
    eexists _, _. split; [ done | ]. split.
    + unfold SwarmController.recommend_rotation_schedule.
      apply (sorted_numeric _ battery_or_100 false).
      unfold numeric_keys. eapply Forall_impl; [ exact Hbat | ].
      intros d [q Hq]. unfold get, battery_or_100. by rewrite Hq.
    + exists ids. split; [ by simplify_map_eq | by apply mapM_Some ].
  - intros Hex. unfold rotation_schedule.
    destruct (mapM (λ d : pydict, k ← d !! "battery"; Some (k, d)) fleet)
      as [keyed|] eqn:Hkeyed; [ | done ].
    cbn [mbind option_bind].
    destruct (sorted (λ kd : pyval * pydict, kd.1) false keyed)
      as [sk|] eqn:Hsk; [ | done ].
    cbn [mbind option_bind].
    destruct (mapM (λ d : pydict, d !! "id") (snd <$> sk)) as [ids|] eqn:Hids;
      [ exfalso | done ].
    apply Exists_exists in Hex as (d & Hd & Hmiss).
    apply mapM_Some in Hkeyed.
    apply list_elem_of_lookup in Hd as [i Hi].
    destruct (Forall2_lookup_l _ _ _ _ _ Hkeyed Hi) as (kd & Hkd & Hk).
    apply bind_Some in Hk as (k & Hbat & [= <-]).
    destruct Hmiss as [Hmiss | Hmiss]; [ congruence | ].
    assert (Hin : d ∈ snd <$> sk).
    { apply list_elem_of_fmap. exists (k, d). split; [ done | ].
      assert (Hperm : sk ≡ₚ keyed) by by eapply sorted_Permutation.
      rewrite Hperm. by eapply list_elem_of_lookup_2. }
    apply mapM_Some in Hids.
    apply list_elem_of_lookup in Hin as [j Hj].
    destruct (Forall2_lookup_l _ _ _ _ _ Hids Hj) as (x & _ & Hx).
    congruence.
Qed.

End WithEnvironment.
(** *** The theorems above on the sample fleet *)

Lemma assign_backup_unit_spec_witness :
  (assign_backup_unit (VStr "Z9") [VStr "S1"; VStr "S2"] quiet_world).1
  = (VStr "S2", [VStr "S1"])
  ∧ (assign_backup_unit (VStr "Z9") [] quiet_world).1 = (VNone, []).
Proof.
  split.
  - pose proof (assign_backup_unit_spec (VStr "Z9") [VStr "S1"; VStr "S2"]
                  quiet_world) as Hspec.
    destruct (assign_backup_unit (VStr "Z9") [VStr "S1"; VStr "S2"]
                quiet_world) as [[assigned standby'] w'].
    destruct Hspec as (_ & Hpop & _).
    destruct (Hpop [VStr "S1"] (VStr "S2") eq_refl) as [-> ->].
    reflexivity.
  - pose proof (assign_backup_unit_spec (VStr "Z9") [] quiet_world) as Hspec.
    destruct (assign_backup_unit (VStr "Z9") [] quiet_world)
      as [[assigned standby'] w'].
    destruct Hspec as (Hempty & _).
    destruct (Hempty eq_refl) as [-> ->].
    reflexivity.
Defined.

Lemma rotation_schedule_spec_witness :
  (∃ plan, (rotation_schedule (take 5 fleet) quiet_world).1 = Some plan
           ∧ SwarmController.recommend_rotation_schedule (take 5 fleet)
             = Some plan)
  ∧ rotation_schedule fleet quiet_world = (None, quiet_world).
Proof.
  split.
  - destruct (proj1 (rotation_schedule_spec (take 5 fleet) quiet_world))
      as (plan & p & Hrun & Hplan & _).
    + repeat (constructor; [ eexists; reflexivity | ]). constructor.
    + repeat (constructor; [ eexists; reflexivity | ]). constructor.
    + exists plan. split; [ by rewrite Hrun | exact Hplan ].
  - apply (proj2 (rotation_schedule_spec fleet quiet_world)).
    apply Exists_exists. exists {[ "id" := VStr "D6" ]}.
    split; [ | left; reflexivity ].
    apply list_elem_of_In. cbn. tauto.
Defined.

End BaseFacts.

(* ===================================================================== *)
(** ** aethernet_drone_mesh_behaviours.py: properties *)
(* ===================================================================== *)

Module MeshFacts.
Import Py PyRandom NetworkSync DroneMeshBehaviours Reference PyFacts SortFacts PyMore.

Lemma round_on_grid (x : Q) (n : nat) (z : Z) :
  x * inject_Z (Z.pos (pow10 n)) == inject_Z z → round x n == x.
Proof.
  intros Hx. unfold round. rewrite (round_half_even_Z z _ Hx).
  assert (Hp : 0 < inject_Z (Z.pos (pow10 n))) by (unfold Qlt; simpl; lia).
  assert (Hz : z # pow10 n == inject_Z z / inject_Z (Z.pos (pow10 n))).
  { rewrite Qmake_Qdiv. reflexivity. }
  rewrite Hz, <- Hx. field. lra.
Qed.

Section WithEnvironment.
Context `{clk : Clock, rnd : Random}.

Lemma uniform_range (a b : Q) (g : RngState) :
  a <= b → a <= (uniform a b g).1 ∧ (uniform a b g).1 <= b.
Proof.
  intros Hab. unfold uniform.
  pose proof (random_unit g) as [Hlo Hhi].
  destruct (random g) as [r g']. cbn [fst] in *. split; nra.
Qed.

Lemma execute_turbulence_pattern_run (drone_id pattern_name : pyval)
    (w : world) :
  ∃ (behavior : pydict) intensity direction altitude p c g,
    execute_turbulence_pattern drone_id pattern_name w
    = (Some behavior,
       {| clock := c; rng := g;
          out := out w ++ [OpenCloud p; ZenodoBegin; ZenodoData p;
                           ZenodoDone] |})
    ∧ behavior = list_to_map
                   [ ("drone_id", drone_id); ("pattern", pattern_name);
                     ("intensity", VNum intensity);
                     ("direction", VStr direction);
                     ("altitude", VNum altitude) ]
    ∧ (0.6 <= intensity ∧ intensity <= 1.0)
    ∧ direction ∈ ["NE"; "SW"; "E"; "W"; "spiral"; "crosscut"]
    ∧ altitude ∈ [480; 500; 520]
    ∧ NetworkSync.payload p
      = <["behavior" := Plain (VDict behavior)]>
          {[ "event" := Plain (VStr "turbulence_pattern_executed") ]}
    ∧ NetworkSync.drone_id p = drone_id.
Proof.
  unfold execute_turbulence_pattern.
  pose proof (uniform_range 0.6 1.0 (rng w)) as Hu.
  destruct (uniform 0.6 1.0 (rng w)) as [x g1]. cbn [fst] in Hu.
  destruct (SwarmMore.choice_elem
              ["NE"; "SW"; "E"; "W"; "spiral"; "crosscut"]%string g1)
    as (dir & Hdir & Hdin); [ done | ].
  destruct (choice ["NE"; "SW"; "E"; "W"; "spiral"; "crosscut"]%string g1)
    as [d g2]. cbn [fst] in Hdir. subst d.
  destruct (SwarmMore.choice_elem [480; 500; 520] g2)
    as (alt & Halt & Hain); [ done | ].
  destruct (choice [480; 500; 520] g2) as [al g3]. cbn [fst] in Halt. subst al.
  rewrite SyncFacts.broadcast_plain. cbv zeta. cbn [clock rng out].
  eexists _, (round x 2), dir, alt, _, _, _.
  split; [ reflexivity | ]. split; [ done | ].
  split; [ | done ].
  destruct Hu as [Hlo Hhi]; [ lra | ].
  pose proof (round_mono _ _ 2 Hlo) as Hr1.
  pose proof (round_mono _ _ 2 Hhi) as Hr2.
  rewrite (round_on_grid 0.6 2 60) in Hr1 by done.
  rewrite (round_on_grid 1.0 2 100) in Hr2 by done.
  done.
Qed.

(** X29. [execute_turbulence_pattern] always returns: a behaviour record with
    the given drone id and pattern, an intensity in [0.6, 1.0], a direction
    among the six and an altitude among the three, and it broadcasts that
    record once. *)
Theorem execute_turbulence_pattern_spec (drone_id pattern_name : pyval)
    (w : world) :
  ∃ (behavior : pydict) intensity direction altitude p,
    (execute_turbulence_pattern drone_id pattern_name w).1 = Some behavior
    ∧ behavior !! "drone_id" = Some drone_id
    ∧ behavior !! "pattern" = Some pattern_name
    ∧ behavior !! "intensity" = Some (VNum intensity)
    ∧ (0.6 <= intensity ∧ intensity <= 1.0)
    ∧ behavior !! "direction" = Some (VStr direction)
    ∧ direction ∈ ["NE"; "SW"; "E"; "W"; "spiral"; "crosscut"]
    ∧ behavior !! "altitude" = Some (VNum altitude)
    ∧ altitude ∈ [480; 500; 520]
    ∧ out (execute_turbulence_pattern drone_id pattern_name w).2
      = out w ++ [OpenCloud p; ZenodoBegin; ZenodoData p; ZenodoDone]
    ∧ NetworkSync.payload p !! "behavior" = Some (Plain (VDict behavior))
    ∧ NetworkSync.payload p !! "event"
      = Some (Plain (VStr "turbulence_pattern_executed")).
Proof.
  destruct (execute_turbulence_pattern_run drone_id pattern_name w)
    as (behavior & i & d & al & p & c & g & -> & -> & Hi & Hd & Ha & Hp & _).
  eexists _, i, d, al, p. cbn [fst snd out]. rewrite Hp.
  repeat split; try done; try apply Hi; by simplify_map_eq.
Qed.

(** X30. [adjust_behavior] picks 'zigzag' exactly when the humidity is above
    0.75 (an absent humidity counts as 0, so 'spiral'); it returns the
    behaviour record of that pattern and broadcasts twice, first the
    executed pattern, then the decision with the same pattern and the
    input conditions.  A humidity that cannot be compared makes it raise
    before anything is drawn or printed. *)
Theorem adjust_behavior_spec (drone_id : pyval) (local_conditions : pydict)
    (w : world) :
  (gt_num (get local_conditions "humidity" (VNum 0)) 0.75 = None →
   adjust_behavior drone_id local_conditions w = (None, w))
  ∧ (∀ hum, get local_conditions "humidity" (VNum 0) = VNum hum →
     ∃ (behavior : pydict) pattern p1 p2,
       (adjust_behavior drone_id local_conditions w).1 = Some behavior
       ∧ (pattern = "zigzag" ∧ 0.75 < hum ∨ pattern = "spiral" ∧ hum <= 0.75)
       ∧ behavior !! "pattern" = Some (VStr pattern)
       ∧ out (adjust_behavior drone_id local_conditions w).2
         = out w ++ [OpenCloud p1; ZenodoBegin; ZenodoData p1; ZenodoDone;
                     OpenCloud p2; ZenodoBegin; ZenodoData p2; ZenodoDone]
       ∧ NetworkSync.payload p1 !! "event"
         = Some (Plain (VStr "turbulence_pattern_executed"))
       ∧ NetworkSync.payload p1 !! "behavior" = Some (Plain (VDict behavior))
       ∧ NetworkSync.payload p2 !! "event"
         = Some (Plain (VStr "adaptive_pattern_decision"))
       ∧ NetworkSync.payload p2 !! "chosen_pattern"
         = Some (Plain (VStr pattern))
       ∧ NetworkSync.payload p2 !! "input_conditions"
         = Some (Plain (VDict local_conditions))).
Proof.
  unfold adjust_behavior. split; [ by intros -> | ].
  intros hum ->. cbn [gt_num].
  set (pattern := if Qltb 0.75 hum then "zigzag" else "spiral").
  destruct (execute_turbulence_pattern_run drone_id (VStr pattern) w)
    as (behavior & i & d & al & p1 & c & g & -> & Hb & _ & _ & _ & Hp1 & _).
  rewrite SyncFacts.broadcast_plain. cbv zeta. cbn [clock rng out fst snd].
  eexists behavior, pattern, p1, _.
  split; [ done | ]. split.
  { unfold pattern. destruct (Qltb 0.75 hum) eqn:Hh.
    - left. split; [ done | by apply Qltb_lt ].
    - right. split; [ done | by apply Qltb_ge ]. }
  split; [ rewrite Hb; by simplify_map_eq | ].
  split; [ by rewrite <- app_assoc | ].
  rewrite Hp1. cbn [NetworkSync.payload]. repeat split; by simplify_map_eq.
Qed.

End WithEnvironment.
(** *** The theorems above on the demo conditions *)

Lemma adjust_behavior_spec_witness :
  (∃ behavior,
     (adjust_behavior (VStr "D087")
        (list_to_map [ ("humidity", VNum 0.81); ("pressure", VNum 997) ])
        quiet_world).1 = Some behavior
     ∧ behavior !! "pattern" = Some (VStr "zigzag"))
  ∧ adjust_behavior (VStr "D087") {[ "humidity" := VStr "wet" ]} quiet_world
    = (None, quiet_world).
Proof.
  split.
  - assert (Hhum : get (list_to_map [ ("humidity", VNum 0.81);
                                      ("pressure", VNum 997) ])
                     "humidity" (VNum 0) = VNum 0.81) by reflexivity.
    destruct (proj2 (adjust_behavior_spec (VStr "D087") _ quiet_world)
                0.81 Hhum)
      as (behavior & pattern & p1 & p2 & Hrun & Hpat & Hb & _).
    exists behavior. split; [ exact Hrun | ].
    destruct Hpat as [[-> _] | [_ Hle]]; [ exact Hb | ].
    exfalso. revert Hle. apply Qlt_not_le. reflexivity.
  - apply (proj1 (adjust_behavior_spec (VStr "D087")
                    {[ "humidity" := VStr "wet" ]} quiet_world)).
    reflexivity.
Defined.

End MeshFacts.
